(** * COVID-19 vaccination dashboard: the data generator and the table steps

    A shallow embedding of [app.py]: the sample-data generator
    [generate_vaccination_data], the guarded loader
    [fetch_real_vaccination_data], and the parts of [main] that filter the
    table, take the latest record per country and build the map data.

    Conventions of the embedding.
    - A Python [float] is an exact rational ([Q]); rounding is not modelled.
      All comparisons of the source are kept, so every statement below is
      about order and about the shape of the formulas.
    - A [datetime] / pandas [Timestamp] is the number of microseconds since
      the epoch ([Z]); a [date] is the number of days since the epoch.
    - [np.random] is a tape of numbers read one per call: the entry is the
      value returned by the engine primitive behind the call (a bounded
      integer, a standard gaussian, a double of the unit interval).
    - A [DataFrame] is the list of its rows, in index order. *)

From Stdlib Require Import ZArith QArith Qround List String Bool Lia Lqa.
From Stdlib Require Import Permutation Sorted Finite.
Import ListNotations.

Local Open Scope Z_scope.

(** ** Python builtins on numbers *)

Module Py.

(** [x < y] on floats. *)
Definition lt (x y : Q) : bool := negb (Qle_bool y x).

(** [min(a, b)]: the first argument unless the second is smaller. *)
Definition min (a b : Q) : Q := if lt b a then b else a.

(** [max(a, b)]: the first argument unless the second is larger. *)
Definition max (a b : Q) : Q := if lt a b then b else a.

(** [int(x)] on a float: truncation towards zero. *)
Definition int (x : Q) : Z := Z.quot (Qnum x) (Zpos (Qden x)).

End Py.

(** ** datetime, timedelta and pd.date_range *)

Module Datetime.

Definition datetime := Z.
Definition date := Z.

Definition US_PER_DAY : Z := 86400000000.

(** [timedelta(days=n)] *)
Definition timedelta (n : Z) : Z := n * US_PER_DAY.

(** [delta.days]: whole days of a time difference (floor). *)
Definition days (delta : Z) : Z := delta / US_PER_DAY.

(** [t.date()] / [.dt.date]: the calendar day of a timestamp. *)
Definition date_of (t : datetime) : date := t / US_PER_DAY.

(** [pd.date_range(start=s, end=e, freq='D')]: s, s + 1 day, ... while
    not after e. *)
Definition date_range (s e : datetime) : list datetime :=
  if e <? s then []
  else map (fun k => s + timedelta (Z.of_nat k))
           (seq 0 (S (Z.to_nat ((e - s) / US_PER_DAY)))).

End Datetime.

(** ** The world the program runs in *)

Record World := mkWorld {
  tape : nat -> Q;          (* values the random engine will return *)
  pos : nat;                (* number of draws made so far *)
  clock : Z;                (* what datetime.now() returns *)
  warnings : list string    (* messages shown by st.warning *)
}.

(** State passing: a computation maps a world to a result and a world. *)
Definition State (A : Type) : Type := World -> A * World.

Definition ret {A} (a : A) : State A := fun w => (a, w).

Definition bind {A B} (m : State A) (k : A -> State B) : State B :=
  fun w => let (a, w') := m w in k a w'.

Declare Scope state_scope.
Delimit Scope state_scope with state.
Notation "x <- m ;; k" := (bind m (fun x => k))
  (at level 61, m at next level, right associativity) : state_scope.
Local Open Scope state_scope.

(** [for x in xs: body], the loop state threaded through the iterations. *)
Fixpoint for_each {A S} (xs : list A) (body : A -> S -> State S) (acc : S)
  : State S :=
  match xs with
  | [] => ret acc
  | x :: rest => acc' <- body x acc ;; for_each rest body acc'
  end.

(** ** np.random *)

Module NpRandom.

(** One draw: read the tape and advance. *)
Definition draw : State Q :=
  fun w => (tape w (pos w),
            mkWorld (tape w) (S (pos w)) (clock w) (warnings w)).

(** The engine primitives. An entry is folded into the range of the
    primitive that reads it, so an entry already in range is returned
    as it is. *)

(** An integer of [0, max]. *)
Definition interval (max : Z) : State Z :=
  q <- draw ;; ret (Qfloor q mod (max + 1)).

(** A double of [0, 1). *)
Definition random_sample : State Q :=
  q <- draw ;; ret (q - inject_Z (Qfloor q))%Q.

(** A standard gaussian. *)
Definition gauss : State Q := draw.

(** [np.random.randint(low, high)]: an integer of [low, high). *)
Definition randint (low high : Z) : State Z :=
  k <- interval (high - low - 1) ;; ret (low + k).

(** [np.random.uniform(low, high)]: a float of [low, high). *)
Definition uniform (low high : Q) : State Q :=
  u <- random_sample ;; ret (low + (high - low) * u)%Q.

(** [np.random.normal(loc, scale)] *)
Definition normal (loc scale : Q) : State Q :=
  g <- gauss ;; ret (loc + scale * g)%Q.

(** [p.cumsum()] *)
Fixpoint cumsum_from (acc : Q) (p : list Q) : list Q :=
  match p with
  | [] => []
  | x :: rest => (acc + x)%Q :: cumsum_from (acc + x)%Q rest
  end.
Definition cumsum (p : list Q) : list Q := cumsum_from 0%Q p.

(** [cdf.searchsorted(u, side='right')] on an increasing [cdf]: the
    number of entries that are at most [u]. *)
Definition searchsorted_right (cdf : list Q) (u : Q) : nat :=
  List.length (filter (fun c => Qle_bool c u) cdf).

(** [np.random.choice(a, p=p)]: the entry of [a] whose slice of the
    cumulative distribution holds a uniform sample. Numpy divides the
    cumulative sums by the last of them; the probabilities used here sum
    to 1, and the division is left out. *)
Definition choice (a : list string) (p : list Q) : State string :=
  u <- random_sample ;;
  ret (nth (searchsorted_right (cumsum p) u) a EmptyString).

End NpRandom.

(** ** The table *)

Record Row := mkRow {
  Date : Datetime.datetime;
  Country : string;
  Fully_Vaccinated_Percentage : Q;
  Partially_Vaccinated_Percentage : Q;
  Doses_Administered : Z;
  Daily_Vaccinations : Z;
  Vaccine_Type : string
}.

Definition DataFrame := list Row.

(** ** generate_vaccination_data *)

Definition now : State Datetime.datetime := fun w => (clock w, w).

Definition countries : list string :=
  ["USA"; "India"; "Brazil"; "UK"; "Germany"; "Japan";
   "France"; "Italy"; "Canada"; "Australia"; "South Africa"; "Mexico"]%string.

Definition vaccine_types : list string :=
  ["Pfizer"; "Moderna"; "AstraZeneca"; "Sinovac"; "Johnson&Johnson"]%string.

Definition vaccine_probabilities : list Q :=
  [4#10; 3#10; 15#100; 1#10; 5#100]%Q.

(** The base rate of a country: a constant for three of them, a draw for
    the others. *)
Definition pick_base_rate (country : string) : State Z :=
  if (country =? "USA")%string then ret 75
  else if (country =? "India")%string then ret 65
  else if (country =? "Brazil")%string then ret 70
  else NpRandom.randint 60 85.

(** The value of [fully_vaccinated] before the clamp at 0. *)
Definition fully_raw (base_rate days_from_start : Z) (noise : Q) : Q :=
  let trend := (inject_Z days_from_start * (1 # 10))%Q in
  Py.min 95 (inject_Z base_rate + trend + noise)%Q.

(** The value of [partially_vaccinated] before the clamp at 0. *)
Definition partially_raw (fully_vaccinated : Q) (r : Z) : Q :=
  Py.min 100 (fully_vaccinated + inject_Z r)%Q.

(** The body of the loop over the dates: one row appended to [data]. *)
Definition append_row (country : string) (base_rate : Z)
    (start_date : Datetime.datetime)
    (date : Datetime.datetime) (data : DataFrame) : State DataFrame :=
  let days_from_start := Datetime.days (date - start_date) in
  noise <- NpRandom.normal 0 2 ;;
  let fully_vaccinated := fully_raw base_rate days_from_start noise in
  r <- NpRandom.randint 5 15 ;;
  let partially_vaccinated := partially_raw fully_vaccinated r in
  doses <- NpRandom.uniform 100000 10000000 ;;
  daily <- NpRandom.uniform 5000 500000 ;;
  vaccine <- NpRandom.choice vaccine_types vaccine_probabilities ;;
  ret (data ++ [ {| Date := date;
                    Country := country;
                    Fully_Vaccinated_Percentage := Py.max 0 fully_vaccinated;
                    Partially_Vaccinated_Percentage :=
                      Py.max 0 partially_vaccinated;
                    Doses_Administered := Py.int doses;
                    Daily_Vaccinations := Py.int daily;
                    Vaccine_Type := vaccine |} ]).

(** The body of the loop over the countries. *)
Definition append_country (start_date : Datetime.datetime)
    (dates : list Datetime.datetime)
    (country : string) (data : DataFrame) : State DataFrame :=
  base_rate <- pick_base_rate country ;;
  for_each dates (append_row country base_rate start_date) data.

(** The function as its body runs: what a call does when the cache of
    the [st.cache_data(ttl=3600)] decorator holds no entry. On a hit the
    decorated function hands back the table of a run up to an hour old,
    the clock of that run in its dates, and makes no draw; the statements
    about the generated table are about the table of the run that built
    it, whenever it is handed out. *)
Definition generate_vaccination_data : State DataFrame :=
  end_date <- now ;;
  let start_date := end_date - Datetime.timedelta 365 in
  let dates := Datetime.date_range start_date end_date in
  data <- for_each countries (append_country start_date dates) [] ;;
  ret data.

(** ** Exceptions, and fetch_real_vaccination_data *)

Inductive Result (A : Type) : Type :=
| Ok (a : A)
| Raised (e : string).
Arguments Ok {A} a.
Arguments Raised {A} e.

(** A computation that may raise. *)
Definition Exc (A : Type) : Type := World -> Result A * World.

Definition eret {A} (a : A) : Exc A := fun w => (Ok a, w).

Definition ebind {A B} (m : Exc A) (k : A -> Exc B) : Exc B :=
  fun w => match m w with
           | (Ok a, w') => k a w'
           | (Raised e, w') => (Raised e, w')
           end.

(** A call of a function that has no raising path. *)
Definition call {A} (m : State A) : Exc A :=
  fun w => let (a, w') := m w in (Ok a, w').

(** [try: body  except: handler], the bare [except] catching everything. *)
Definition try_except {A} (body handler : Exc A) : Exc A :=
  fun w => match body w with
           | (Ok a, w') => (Ok a, w')
           | (Raised _, w') => handler w'
           end.

Definition st_warning (msg : string) : State unit :=
  fun w => (tt, mkWorld (tape w) (pos w) (clock w) (warnings w ++ [msg])).

Definition fetch_warning : string :=
  "Could not fetch real-time data. Using sample data."%string.

Section Fetch.

(** What the call [generate_vaccination_data()] does at the two places
    where [fetch_real_vaccination_data] makes it. The name called is the
    function as decorated by [st.cache_data]: a call may run the body,
    hand back the table of an earlier run, or raise as any call can (a
    [MemoryError] while the rows are built, an error of the cache). *)
Variable generate_call : Exc DataFrame.

(** The [except] branch: the warning, then a call of the generator that
    nothing guards. *)
Definition fetch_handler : Exc DataFrame :=
  ebind (call (st_warning fetch_warning)) (fun _ => generate_call).

Definition fetch_real_vaccination_data : Exc DataFrame :=
  try_except generate_call fetch_handler.

End Fetch.

(** ** The filtering step of main *)

(** [x in xs] on strings. *)
Definition isin (x : string) (xs : list string) : bool :=
  existsb (String.eqb x) xs.

(** Truth value of a list: non-empty. *)
Definition truthy {A} (xs : list A) : bool :=
  match xs with [] => false | _ :: _ => true end.

Definition all_countries : string := "All Countries"%string.

(** The rows the date mask keeps. *)
Definition date_mask (start_date end_date : Datetime.date) (r : Row) : bool :=
  (start_date <=? Datetime.date_of (Date r))
  && (Datetime.date_of (Date r) <=? end_date).

(** The country test, then the date mask. Between the two the source
    passes the Date column through [pd.to_datetime], which leaves
    timestamps as they are. *)
Definition filter_data (selected_countries : list string)
    (start_date end_date : Datetime.date) (df : DataFrame) : DataFrame :=
  let df :=
    if negb (isin all_countries selected_countries)
       && truthy selected_countries
    then filter (fun r => isin (Country r) selected_countries) df
    else df in
  filter (date_mask start_date end_date) df.

(** ** Latest record per country *)

(** [df.sort_values('Date')]. Pandas sorts with an unstable quicksort, so
    the order of rows of equal date is not fixed by the call:
    [is_sorted_by_date] is what every result satisfies, [sort_values] is
    one of them. *)
Definition date_le (r1 r2 : Row) : Prop := Date r1 <= Date r2.

Definition is_sorted_by_date (df sorted : DataFrame) : Prop :=
  Permutation df sorted /\ StronglySorted date_le sorted.

Fixpoint insert_by_date (r : Row) (df : DataFrame) : DataFrame :=
  match df with
  | [] => [r]
  | r' :: rest =>
      if Date r <? Date r' then r :: df else r' :: insert_by_date r rest
  end.

Definition sort_values (df : DataFrame) : DataFrame :=
  fold_left (fun sorted r => insert_by_date r sorted) df [].

(** The sorted distinct group keys of [groupby('Country')]. *)
Fixpoint insert_key (k : string) (keys : list string) : list string :=
  match keys with
  | [] => [k]
  | k' :: rest =>
      match String.compare k k' with
      | Lt => k :: keys
      | Eq => keys
      | Gt => k' :: insert_key k rest
      end
  end.

Definition group_keys (df : DataFrame) : list string :=
  fold_left (fun keys r => insert_key (Country r) keys) df [].

(** The rows of one group, in table order. *)
Definition group (key : string) (df : DataFrame) : DataFrame :=
  filter (fun r => (Country r =? key)%string) df.

(** [df.groupby('Country').last().reset_index()]: for each key, in key
    order, the last row of its group (no column of the table is ever
    null, so the last value of every column is that of the last row). *)
Definition groupby_last (df : DataFrame) : DataFrame :=
  flat_map (fun key => match rev (group key df) with
                       | [] => []
                       | r :: _ => [r]
                       end)
           (group_keys df).

Definition latest_data (df_filtered : DataFrame) : DataFrame :=
  groupby_last (sort_values df_filtered).

(** ** The data of the Global Map page *)

Record GeoRow := mkGeoRow {
  geo_Country : string;
  geo_Fully_Vaccinated : Z;
  geo_Lat : Q;
  geo_Lon : Q;
  geo_Doses_Administered : Z
}.

Definition countries_geo : list string :=
  ["USA"; "India"; "Brazil"; "United Kingdom"; "Germany";
   "Japan"; "France"; "Italy"; "Canada"; "Australia"]%string.

Definition append_geo (country : string) (geo_data : list GeoRow)
  : State (list GeoRow) :=
  fully <- NpRandom.randint 50 95 ;;
  lat <- NpRandom.uniform (-50) 70 ;;
  lon <- NpRandom.uniform (-180) 180 ;;
  doses <- NpRandom.randint 1000000 1000000000 ;;
  ret (geo_data ++ [ {| geo_Country := country;
                        geo_Fully_Vaccinated := fully;
                        geo_Lat := lat;
                        geo_Lon := lon;
                        geo_Doses_Administered := doses |} ]).

Definition build_geo_data : State (list GeoRow) :=
  for_each countries_geo append_geo [].

(** ** main: loading, filtering and the data of the pages *)

Inductive Page : Type :=
| Overview | GlobalMap | Trends | CountryAnalysis | DataExplorer | Settings.

(** What the sidebar widgets return. *)
Record Sidebar := mkSidebar {
  selected : Page;
  start_date : Datetime.date;
  end_date : Datetime.date;
  selected_countries : list string
}.

(** The table a page starts from. Of the Overview page only the country
    comparison is kept, of the other pages the filtered table they read.
    What a page then does with its table is not part of a [View]: a page
    can still raise while it renders (the multiselect of Settings when a
    default is not among its options, the date range line of Data
    Explorer on an empty table). *)
Inductive View : Type :=
| OverviewView (latest : DataFrame)
| GlobalMapView (geo_df : list GeoRow)
| TableView (df_filtered : DataFrame).

(** [st.session_state.vaccine_data] *)
Definition Session := option DataFrame.

(** The loading step, each call of the generator running its body. *)

Definition load_data (session : Session) : Exc (DataFrame * Session) :=
  match session with
  | None => ebind (fetch_real_vaccination_data
                     (call generate_vaccination_data))
                  (fun df => eret (df, Some df))
  | Some df => eret (df, session)
  end.

(** [main] from the loading of the table to the table the selected page
    starts from. *)
Definition main (ui : Sidebar) (session : Session) : Exc (View * Session) :=
  ebind (load_data session) (fun '(df, session') =>
    let df_filtered :=
      filter_data (selected_countries ui) (start_date ui) (end_date ui) df in
    match selected ui with
    | Overview => eret (OverviewView (latest_data df_filtered), session')
    | GlobalMap =>
        ebind (call build_geo_data)
              (fun geo_df => eret (GlobalMapView geo_df, session'))
    | _ => eret (TableView df_filtered, session')
    end).

(** ** The sidebar of main *)

(** The list [countries] of the sidebar, the sentinel first. *)
Definition sidebar_countries : list string :=
  ["All Countries"; "USA"; "India"; "Brazil"; "UK"; "Germany";
   "Japan"; "France"; "Italy"; "Canada"; "Australia"]%string.

(** [countries[1:]], the options of the multiselect. *)
Definition multiselect_options : list string := tl sidebar_countries.

Definition default_countries : list string :=
  ["USA"; "India"; "Brazil"; "UK"]%string.

(** What [st.multiselect] can return: options, each at most once. *)
Definition selectable (selection : list string) : Prop :=
  NoDup selection /\ incl selection multiselect_options.

(** ** Floats that may be nan *)

Module PyFloat.

(** A float, [None] standing for nan. *)
Definition t : Type := option Q.

Definition add (x y : t) : t :=
  match x, y with
  | Some a, Some b => Some (a + b)%Q
  | _, _ => None
  end.

Definition sub (x y : t) : t :=
  match x, y with
  | Some a, Some b => Some (a - b)%Q
  | _, _ => None
  end.

(** [x < y]: false as soon as one side is nan. *)
Definition lt (x y : t) : bool :=
  match x, y with
  | Some a, Some b => Py.lt a b
  | _, _ => false
  end.

(** [min(a, b)] and [max(a, b)], as in [Py]. *)
Definition min (a b : t) : t := if lt b a then b else a.
Definition max (a b : t) : t := if lt a b then b else a.

End PyFloat.

(** ** Columns and their aggregates *)

(** [series.sum()] on an integer column. *)
Definition isum (xs : list Z) : Z := fold_left Z.add xs 0.

(** [series.sum()] on a float column. *)
Definition fsum (xs : list Q) : Q := fold_left Qplus xs 0%Q.

(** [series.mean()]: nan on an empty column. *)
Definition mean (xs : list Q) : PyFloat.t :=
  if truthy xs
  then Some (fsum xs / inject_Z (Z.of_nat (List.length xs)))%Q
  else None.

(** [series.unique()]: the distinct values, in order of first
    appearance. *)
Definition unique (xs : list string) : list string :=
  fold_left (fun seen x => if isin x seen then seen else seen ++ [x]) xs [].

(** [series.nunique()] *)
Definition nunique (xs : list string) : nat := List.length (unique xs).

(** The number of entries equal to [x]. *)
Definition occurrences (x : string) (xs : list string) : nat :=
  List.length (filter (String.eqb x) xs).

(** [series.value_counts()]: each distinct value with its number of
    entries, the larger counts first. *)
Fixpoint insert_count (kv : string * nat) (l : list (string * nat))
  : list (string * nat) :=
  match l with
  | [] => [kv]
  | kv' :: rest =>
      if (snd kv' <? snd kv)%nat then kv :: l
      else kv' :: insert_count kv rest
  end.

Definition value_counts (xs : list string) : list (string * nat) :=
  fold_left (fun acc k => insert_count (k, occurrences k xs) acc)
            (unique xs) [].

(** The sorted distinct keys of [groupby('Date')]. *)
Fixpoint insert_date (d : Datetime.datetime) (keys : list Datetime.datetime)
  : list Datetime.datetime :=
  match keys with
  | [] => [d]
  | d' :: rest =>
      match d ?= d' with
      | Lt => d :: keys
      | Eq => keys
      | Gt => d' :: insert_date d rest
      end
  end.

Definition date_keys (df : DataFrame) : list Datetime.datetime :=
  fold_left (fun keys r => insert_date (Date r) keys) df [].

Definition group_by_date (d : Datetime.datetime) (df : DataFrame)
  : DataFrame :=
  filter (fun r => Date r =? d) df.

(** ** The Overview page *)

(** The four metrics at the top of the page. *)
Record OverviewMetrics := mkOverviewMetrics {
  avg_vax : PyFloat.t;
  total_doses : Z;
  daily_avg_metric : PyFloat.t;
  countries_count : nat
}.

Definition overview_metrics (df_filtered : DataFrame) : OverviewMetrics :=
  {| avg_vax := mean (map Fully_Vaccinated_Percentage df_filtered);
     total_doses := isum (map Doses_Administered df_filtered);
     daily_avg_metric :=
       mean (map (fun r => inject_Z (Daily_Vaccinations r)) df_filtered);
     countries_count := nunique (map Country df_filtered) |}.

(** A row of [daily_avg]: the means of the two percentages on one date. *)
Record DailyAverage := mkDailyAverage {
  avg_Date : Datetime.datetime;
  avg_Fully : PyFloat.t;
  avg_Partially : PyFloat.t
}.

(** [df_filtered.groupby('Date').agg({...: 'mean'}).reset_index()] *)
Definition daily_avg (df_filtered : DataFrame) : list DailyAverage :=
  map (fun d =>
         let rows := group_by_date d df_filtered in
         {| avg_Date := d;
            avg_Fully := mean (map Fully_Vaccinated_Percentage rows);
            avg_Partially := mean (map Partially_Vaccinated_Percentage rows)
         |})
      (date_keys df_filtered).

(** [df_filtered.groupby('Date')['Daily_Vaccinations'].sum().reset_index()] *)
Definition daily_totals (df_filtered : DataFrame)
  : list (Datetime.datetime * Z) :=
  map (fun d => (d, isum (map Daily_Vaccinations
                              (group_by_date d df_filtered))))
      (date_keys df_filtered).

(** [df_filtered['Vaccine_Type'].value_counts().reset_index()] *)
Definition vaccine_dist (df_filtered : DataFrame) : list (string * nat) :=
  value_counts (map Vaccine_Type df_filtered).

(** ** The Trends page *)

(** [groupby('Country')['Fully_Vaccinated_Percentage'].diff()]: for each
    row, in table order, its value minus that of the previous row of the
    same country, nan for the first row of a country. [last_seen] holds
    the latest value of each country met so far, the most recent first. *)
Fixpoint lookup_value (c : string) (last_seen : list (string * Q))
  : option Q :=
  match last_seen with
  | [] => None
  | (c', v) :: rest => if (c =? c')%string then Some v else lookup_value c rest
  end.

Fixpoint diff_from (last_seen : list (string * Q)) (rows : DataFrame)
  : list PyFloat.t :=
  match rows with
  | [] => []
  | r :: rest =>
      PyFloat.sub (Some (Fully_Vaccinated_Percentage r))
                  (lookup_value (Country r) last_seen)
      :: diff_from ((Country r, Fully_Vaccinated_Percentage r) :: last_seen)
                   rest
  end.

Definition daily_change (df_sorted : DataFrame) : list PyFloat.t :=
  diff_from [] df_sorted.

(** [yaxis_range=[max(0, avg - 10), min(100, avg + 15)]] *)
Definition yaxis_range (current_avg_vax : PyFloat.t) : PyFloat.t * PyFloat.t :=
  (PyFloat.max (Some 0%Q) (PyFloat.sub current_avg_vax (Some 10%Q)),
   PyFloat.min (Some 100%Q) (PyFloat.add current_avg_vax (Some 15%Q))).

(** ** The Country Analysis page *)

(** [frame.iloc[-1]]: the last row, an IndexError on an empty frame. *)
Definition iloc_last (df : DataFrame) : Result Row :=
  match rev df with
  | [] => Raised "IndexError: single positional indexer is out-of-bounds"
  | r :: _ => Ok r
  end.

(** What [st.selectbox] returns before the user chooses: the first
    option, [None] when there is none. *)
Definition selectbox_default (options : list string) : option string :=
  hd_error options.

(** The three metrics of the page. *)
Record CountryMetrics := mkCountryMetrics {
  cm_Fully_Vaccinated : Q;
  cm_Total_Doses : Z;
  cm_Daily_Rate : Z
}.

(** The page for the chosen [country]: nothing is shown when no country
    is chosen. *)
Definition country_analysis (country : option string)
    (df_filtered : DataFrame) : Result (option CountryMetrics) :=
  match country with
  | None => Ok None
  | Some c =>
      if (c =? "")%string then Ok None
      else
        let country_data :=
          filter (fun r => (Country r =? c)%string) df_filtered in
        match iloc_last country_data with
        | Raised e => Raised e
        | Ok latest =>
            Ok (Some {| cm_Fully_Vaccinated :=
                          Fully_Vaccinated_Percentage latest;
                        cm_Total_Doses := Doses_Administered latest;
                        cm_Daily_Rate := Daily_Vaccinations latest |})
        end
  end.

(** ** The Data Explorer page *)

(** [frame.head(n)] *)
Definition head (n : nat) (df : DataFrame) : DataFrame := firstn n df.

(** The rows handed to the grid of the raw data preview. *)
Definition raw_data_preview (df_filtered : DataFrame) : DataFrame :=
  head 1000 df_filtered.

(** * Vocabulary of the statements *)

(** What a computation leaves alone: the tape, the clock and the warnings;
    the position only advances. *)
Definition draws_only (w0 w : World) : Prop :=
  tape w = tape w0 /\ clock w = clock w0 /\ warnings w = warnings w0
  /\ (pos w0 <= pos w)%nat.

(** [row] is the row the generator builds for [country] and [date] from
    two consecutive draws of the tape of [w0]: the noise, then the gap
    between the two percentages. *)
Definition row_generated (w0 : World) (country : string) (base_rate : Z)
    (start date : Datetime.datetime) (row : Row) : Prop :=
  Date row = date /\ Country row = country
  /\ exists w1,
      draws_only w0 w1
      /\ let noise := fst (NpRandom.normal 0 2 w1) in
         let r := fst (NpRandom.randint 5 15 (snd (NpRandom.normal 0 2 w1))) in
         let fully_vaccinated :=
           fully_raw base_rate (Datetime.days (date - start)) noise in
         Fully_Vaccinated_Percentage row = Py.max 0 fully_vaccinated
         /\ Partially_Vaccinated_Percentage row
            = Py.max 0 (partially_raw fully_vaccinated r)
         /\ In (Vaccine_Type row) vaccine_types.

(** [block] is what the loop over the dates appends for [country]. *)
Definition country_generated (w0 : World) (start : Datetime.datetime)
    (dates : list Datetime.datetime) (country : string) (block : DataFrame)
  : Prop :=
  exists base_rate w1,
    draws_only w0 w1
    /\ base_rate = fst (pick_base_rate country w1)
    /\ Forall2 (row_generated w0 country base_rate start) dates block.

(** The bounds of the two percentages of a row. *)
Definition row_in_bounds (r : Row) : Prop :=
  (0 <= Fully_Vaccinated_Percentage r <= 95
   /\ Fully_Vaccinated_Percentage r <= Partially_Vaccinated_Percentage r
   /\ Partially_Vaccinated_Percentage r <= 100)%Q.

(** The country and the timestamp of a row. *)
Definition key (r : Row) : string * Datetime.datetime := (Country r, Date r).

(** The base rates of the countries, as one function of the country. *)
Definition country_generated_with (w0 : World) (start : Datetime.datetime)
    (dates : list Datetime.datetime) (base_rate : string -> Z)
    (country : string) (block : DataFrame) : Prop :=
  (exists w1, draws_only w0 w1
              /\ base_rate country = fst (pick_base_rate country w1))
  /\ Forall2 (row_generated w0 country (base_rate country) start) dates block.

(** What a generated row is, in terms of the base rate of its country. *)
Definition row_follows_formula (w0 : World) (start : Datetime.datetime)
    (base_rate : string -> Z) (row : Row) : Prop :=
  exists w1,
    draws_only w0 w1
    /\ let noise := fst (NpRandom.normal 0 2 w1) in
       let r := fst (NpRandom.randint 5 15 (snd (NpRandom.normal 0 2 w1))) in
       let day_offset := Datetime.days (Date row - start) in
       let fully :=
         Py.min 95 (inject_Z (base_rate (Country row))
                    + inject_Z day_offset * (1 # 10) + noise)%Q in
       0 <= day_offset <= 365
       /\ 5 <= r < 15
       /\ Fully_Vaccinated_Percentage row = Py.max 0 fully
       /\ Partially_Vaccinated_Percentage row
          = Py.max 0 (Py.min 100 (fully + inject_Z r)%Q).

(** A clock value, and a tape whose every entry is -50: the noise of
    every row is then 0 + 2 * -50 = -100 and the gap is 5. *)
Definition a_clock : Z := 1762250602123456.

Definition far_below : World := mkWorld (fun _ => (-50)%Q) 0 a_clock [].

(** Two tapes for the map: all zeros, and all zeros but one entry. *)
Definition zero_tape : World := mkWorld (fun _ => 0%Q) 0 a_clock [].

Definition half_tape : World :=
  mkWorld (fun n => if (n =? 1)%nat then (1 # 2)%Q else 0%Q) 0 a_clock [].



(** The world after [n] more draws. *)
Definition advance (n : nat) (w : World) : World :=
  mkWorld (tape w) (n + pos w) (clock w) (warnings w).

(** The four numbers sampled for the [k]-th country of the map: what the
    four calls of [np.random] return at the draws 4k .. 4k+3 that follow
    the position of the world. *)
Definition geo_samples (w : World) (k : nat) : Z * Q * Q * Z :=
  (fst (NpRandom.randint 50 95 (advance (4 * k) w)),
   fst (NpRandom.uniform (-50) 70 (advance (4 * k + 1) w)),
   fst (NpRandom.uniform (-180) 180 (advance (4 * k + 2) w)),
   fst (NpRandom.randint 1000000 1000000000 (advance (4 * k + 3) w))).

(** The numbers a row of the map shows. *)
Definition geo_values (r : GeoRow) : Z * Q * Q * Z :=
  (geo_Fully_Vaccinated r, geo_Lat r, geo_Lon r, geo_Doses_Administered r).

(** The order of the group keys: the order of Python strings. *)
Definition key_lt (a b : string) : Prop := String.compare a b = Lt.

(** The row that [groupby_last] keeps for a key, if the group has rows. *)
Definition last_of_group (key : string) (df : DataFrame) : option Row :=
  match rev (group key df) with
  | [] => None
  | r :: _ => Some r
  end.

(** A filtered table of two countries and three days, out of order. *)
Definition sample_row (date : Datetime.datetime) (country : string)
    (fully : Q) : Row :=
  {| Date := date; Country := country;
     Fully_Vaccinated_Percentage := fully;
     Partially_Vaccinated_Percentage := (fully + 5)%Q;
     Doses_Administered := 100000; Daily_Vaccinations := 5000;
     Vaccine_Type := "Pfizer" |}.

Definition sample_table : DataFrame :=
  [ sample_row (a_clock - Datetime.timedelta 1) "USA" 76;
    sample_row a_clock "India" 66;
    sample_row (a_clock - Datetime.timedelta 2) "India" 64;
    sample_row a_clock "USA" 77;
    sample_row (a_clock - Datetime.timedelta 2) "USA" 75 ].

(** The bounds of the two counts of a row. *)
Definition counts_in_range (r : Row) : Prop :=
  100000 <= Doses_Administered r <= 10000000
  /\ 5000 <= Daily_Vaccinations r <= 500000.

(** The days the date mask keeps. *)
Definition in_range (a b : Datetime.date) (d : Datetime.datetime) : bool :=
  (a <=? Datetime.date_of d) && (Datetime.date_of d <=? b).

(** [series.diff()] on one column: each value minus the one before it,
    nan for the first; [prev] is the value before the column. *)
Fixpoint series_diff_from (prev : PyFloat.t) (xs : list Q) : list PyFloat.t :=
  match xs with
  | [] => []
  | x :: rest => PyFloat.sub (Some x) prev :: series_diff_from (Some x) rest
  end.

Definition series_diff (xs : list Q) : list PyFloat.t :=
  series_diff_from None xs.

(** The entries of a column of changes that stand on the rows of a
    country. *)
Definition changes_of (c : string) (df : DataFrame)
    (changes : list PyFloat.t) : list PyFloat.t :=
  map snd (filter (fun rc => (Country (fst rc) =? c)%string)
                  (combine df changes)).

(** The number of nan entries of a column. *)
Definition count_nan (xs : list PyFloat.t) : nat :=
  List.length (filter (fun x => match x with None => true | Some _ => false end)
                      xs).

(** The metrics the Country Analysis page shows for a row. *)
Definition metrics_of (latest : Row) : CountryMetrics :=
  {| cm_Fully_Vaccinated := Fully_Vaccinated_Percentage latest;
     cm_Total_Doses := Doses_Administered latest;
     cm_Daily_Rate := Daily_Vaccinations latest |}.

(** Rows in strictly increasing order of date. *)
Definition date_lt (r1 r2 : Row) : Prop := Date r1 < Date r2.

(** * Properties *)

(** ** Loops that extend a list *)

Lemma draws_only_refl (w : World) : draws_only w w.
Proof. unfold draws_only. auto. Qed.

Lemma draws_only_trans (w0 w1 w2 : World) :
  draws_only w0 w1 -> draws_only w1 w2 -> draws_only w0 w2.
Proof.
  unfold draws_only. intros (T1 & C1 & W1 & P1) (T2 & C2 & W2 & P2).
  repeat split; try congruence. lia.
Qed.

Lemma draw_draws_only (w : World) : draws_only w (snd (NpRandom.draw w)).
Proof. unfold draws_only, NpRandom.draw. simpl. auto. Qed.

(** A loop whose body appends a block to the list appends the blocks in
    the order of the iterations. *)
Lemma for_each_extends {A B} (body : A -> list B -> State (list B))
    (R : A -> list B -> Prop) (w0 : World) :
  (forall x data w,
      draws_only w0 w ->
      exists block,
        fst (body x data w) = data ++ block /\ R x block
        /\ draws_only w0 (snd (body x data w))) ->
  forall xs data w,
    draws_only w0 w ->
    exists blocks,
      fst (for_each xs body data w) = data ++ List.concat blocks
      /\ Forall2 R xs blocks
      /\ draws_only w0 (snd (for_each xs body data w)).
Proof.
  intros step. induction xs as [|x xs IH]; intros data w Hw.
  - exists []. simpl. rewrite app_nil_r. auto.
  - simpl. unfold bind.
    destruct (step x data w Hw) as (block & Hb & HR & Hw1).
    destruct (body x data w) as [data1 w1]. simpl in Hb, Hw1. subst data1.
    destruct (IH (data ++ block) w1 Hw1) as (blocks & Hbs & HRs & Hw2).
    exists (block :: blocks). simpl. rewrite Hbs, <- app_assoc. auto.
Qed.

Lemma concat_singletons {A B} (R : A -> B -> Prop) (xs : list A)
    (blocks : list (list B)) :
  Forall2 (fun x block => exists y, block = [y] /\ R x y) xs blocks ->
  Forall2 R xs (List.concat blocks).
Proof.
  induction 1 as [|x block xs blocks (y & -> & Hy) _ IH]; simpl; auto.
Qed.

(** ** The builtins *)

Lemma py_lt_spec (x y : Q) : BoolSpec (x < y)%Q (y <= x)%Q (Py.lt x y).
Proof.
  unfold Py.lt. destruct (Qle_bool y x) eqn:E; simpl; constructor.
  - apply Qle_bool_iff. exact E.
  - apply Qnot_le_lt. intro H. apply Qle_bool_iff in H. congruence.
Qed.

Ltac py_cases :=
  unfold Py.min, Py.max in *;
  repeat match goal with
         | |- context [Py.lt ?a ?b] => destruct (py_lt_spec a b)
         | H : context [Py.lt ?a ?b] |- _ => destruct (py_lt_spec a b)
         end.

(** ** The random draws stay in range *)

Lemma interval_range (max : Z) (w : World) :
  0 <= max -> 0 <= fst (NpRandom.interval max w) <= max.
Proof.
  intros Hmax. unfold NpRandom.interval, NpRandom.draw, bind, ret. simpl.
  pose proof (Z.mod_pos_bound (Qfloor (tape w (pos w))) (max + 1)). lia.
Qed.

Lemma randint_range (low high : Z) (w : World) :
  low < high -> low <= fst (NpRandom.randint low high w) < high.
Proof.
  intros Hlh. unfold NpRandom.randint, bind, ret.
  pose proof (interval_range (high - low - 1) w) as Hi.
  destruct (NpRandom.interval (high - low - 1) w) as [k w']. simpl in *. lia.
Qed.

Lemma random_sample_range (w : World) :
  (0 <= fst (NpRandom.random_sample w) < 1)%Q.
Proof.
  unfold NpRandom.random_sample, NpRandom.draw, bind, ret. simpl.
  pose proof (Qfloor_le (tape w (pos w))).
  pose proof (Qlt_floor (tape w (pos w))) as Hlt.
  rewrite inject_Z_plus in Hlt. change (inject_Z 1) with 1%Q in Hlt. lra.
Qed.

Lemma interval_draws_only (max : Z) (w : World) :
  draws_only w (snd (NpRandom.interval max w)).
Proof. apply draw_draws_only. Qed.

Lemma randint_draws_only (low high : Z) (w : World) :
  draws_only w (snd (NpRandom.randint low high w)).
Proof. apply draw_draws_only. Qed.

Lemma uniform_draws_only (low high : Q) (w : World) :
  draws_only w (snd (NpRandom.uniform low high w)).
Proof. apply draw_draws_only. Qed.

Lemma normal_draws_only (loc scale : Q) (w : World) :
  draws_only w (snd (NpRandom.normal loc scale w)).
Proof. apply draw_draws_only. Qed.

Lemma choice_draws_only (a : list string) (p : list Q) (w : World) :
  draws_only w (snd (NpRandom.choice a p w)).
Proof. apply draw_draws_only. Qed.

(** ** The shape of the generated table *)

Lemma choice_vaccine_type (w : World) :
  In (fst (NpRandom.choice vaccine_types vaccine_probabilities w))
     vaccine_types.
Proof.
  unfold NpRandom.choice, bind, ret.
  pose proof (random_sample_range w) as Hu.
  destruct (NpRandom.random_sample w) as [u w']. simpl fst in *.
  unfold NpRandom.searchsorted_right, vaccine_probabilities, NpRandom.cumsum.
  simpl NpRandom.cumsum_from. simpl filter.
  assert (Hlast : Qle_bool (0 + (4 # 10) + (3 # 10) + (15 # 100) + (1 # 10)
                            + (5 # 100)) u = false).
  { destruct (Qle_bool _ u) eqn:E; [ | reflexivity ].
    apply Qle_bool_iff in E. lra. }
  rewrite Hlast.
  repeat match goal with
         | |- context [Qle_bool ?c u] => destruct (Qle_bool c u)
         end; simpl; auto 10.
Qed.

Lemma append_row_spec (w0 : World) country base_rate start date data w :
  draws_only w0 w ->
  exists block,
    fst (append_row country base_rate start date data w) = data ++ block
    /\ (exists row, block = [row]
                    /\ row_generated w0 country base_rate start date row)
    /\ draws_only w0 (snd (append_row country base_rate start date data w)).
Proof.
  intros Hw. unfold append_row, bind, ret.
  pose proof (normal_draws_only 0 2 w) as D1.
  destruct (NpRandom.normal 0 2 w) as [noise w1] eqn:E1.
  pose proof (randint_draws_only 5 15 w1) as D2.
  destruct (NpRandom.randint 5 15 w1) as [r w2] eqn:E2.
  pose proof (uniform_draws_only 100000 10000000 w2) as D3.
  destruct (NpRandom.uniform 100000 10000000 w2) as [doses w3].
  pose proof (uniform_draws_only 5000 500000 w3) as D4.
  destruct (NpRandom.uniform 5000 500000 w3) as [daily w4].
  pose proof (choice_draws_only vaccine_types vaccine_probabilities w4) as D5.
  pose proof (choice_vaccine_type w4) as Hv.
  destruct (NpRandom.choice vaccine_types vaccine_probabilities w4)
    as [vaccine w5].
  simpl fst in *. simpl snd in *.
  eexists. split; [ reflexivity | ]. split.
  - eexists. split; [ reflexivity | ].
    unfold row_generated. split; [ reflexivity | ].
    split; [ reflexivity | ].
    exists w. split; [ exact Hw | ]. rewrite E1. cbv zeta.
    change (snd (noise, w1)) with w1. change (fst (noise, w1)) with noise.
    rewrite E2. change (fst (r, w2)) with r. split; [ reflexivity | ]. split; [ reflexivity | exact Hv ].
  - apply (draws_only_trans _ _ _ Hw).
    apply (draws_only_trans _ _ _ D1). apply (draws_only_trans _ _ _ D2).
    apply (draws_only_trans _ _ _ D3). apply (draws_only_trans _ _ _ D4).
    exact D5.
Qed.

Lemma append_country_spec (w0 : World) start dates country data w :
  draws_only w0 w ->
  exists block,
    fst (append_country start dates country data w) = data ++ block
    /\ country_generated w0 start dates country block
    /\ draws_only w0 (snd (append_country start dates country data w)).
Proof.
  intros Hw. unfold append_country, bind.
  assert (D1 : draws_only w (snd (pick_base_rate country w))).
  { unfold pick_base_rate.
    repeat match goal with
           | |- context [if ?b then _ else _] => destruct b
           end;
      try apply draws_only_refl. apply randint_draws_only. }
  destruct (pick_base_rate country w) as [base_rate w1] eqn:E1.
  simpl in D1.
  destruct (for_each_extends (append_row country base_rate start)
              (fun date block =>
                 exists row, block = [row]
                   /\ row_generated w0 country base_rate start date row)
              w0 (append_row_spec w0 country base_rate start)
              dates data w1 (draws_only_trans _ _ _ Hw D1))
    as (blocks & Hb & HR & Hw2).
  exists (List.concat blocks). split; [ exact Hb | ]. split; [ | exact Hw2 ].
  exists base_rate, w. split; [ exact Hw | ]. split.
  - rewrite E1. reflexivity.
  - apply concat_singletons. exact HR.
Qed.

(** The generated table, country by country: the blocks of the countries
    in the order of [countries], each with one row per date of the window,
    in the order of the dates. *)
Lemma generate_structure (w : World) :
  let start := clock w - Datetime.timedelta 365 in
  let dates := Datetime.date_range start (clock w) in
  exists blocks,
    fst (generate_vaccination_data w) = List.concat blocks
    /\ Forall2 (country_generated w start dates) countries blocks
    /\ draws_only w (snd (generate_vaccination_data w)).
Proof.
  intros start dates.
  destruct (for_each_extends (append_country start dates)
              (country_generated w start dates) w
              (fun c data w' => append_country_spec w start dates c data w')
              countries [] w (draws_only_refl w))
    as (blocks & Hb & HR & Hw).
  assert (E : generate_vaccination_data w
              = for_each countries (append_country start dates) [] w).
  { unfold generate_vaccination_data, bind, ret, now. cbv beta iota.
    fold start. fold dates.
    destruct (for_each countries (append_country start dates) [] w).
    reflexivity. }
  rewrite E.
  exists blocks. split; [ exact Hb | ]. split; [ exact HR | exact Hw ].
Qed.

Lemma Forall2_Forall_r {A B} (R : A -> B -> Prop) (P : B -> Prop)
    (xs : list A) (ys : list B) :
  (forall x y, R x y -> P y) -> Forall2 R xs ys -> Forall P ys.
Proof. intros HRP. induction 1; constructor; eauto. Qed.

(** ** The window of dates *)

Lemma date_range_window (t : Datetime.datetime) :
  Datetime.date_range (t - Datetime.timedelta 365) t
  = map (fun k => t - Datetime.timedelta 365 + Datetime.timedelta (Z.of_nat k))
        (seq 0 366).
Proof.
  unfold Datetime.date_range.
  assert (Hlt : (t <? t - Datetime.timedelta 365) = false).
  { apply Z.ltb_ge. unfold Datetime.timedelta, Datetime.US_PER_DAY. lia. }
  rewrite Hlt.
  replace (t - (t - Datetime.timedelta 365)) with (365 * Datetime.US_PER_DAY)
    by (unfold Datetime.timedelta; lia).
  rewrite Z.div_mul by (unfold Datetime.US_PER_DAY; lia).
  reflexivity.
Qed.

Lemma date_of_shift (s k : Z) :
  Datetime.date_of (s + Datetime.timedelta k) = Datetime.date_of s + k.
Proof.
  unfold Datetime.date_of, Datetime.timedelta.
  apply Z.div_add. unfold Datetime.US_PER_DAY. lia.
Qed.

Lemma days_shift (s k : Z) :
  Datetime.days (s + Datetime.timedelta k - s) = k.
Proof.
  unfold Datetime.days, Datetime.timedelta.
  replace (s + k * Datetime.US_PER_DAY - s) with (k * Datetime.US_PER_DAY)
    by lia.
  apply Z.div_mul. unfold Datetime.US_PER_DAY. lia.
Qed.

Lemma NoDup_list_prod {A B} (xs : list A) (ys : list B) :
  NoDup xs -> NoDup ys -> NoDup (list_prod xs ys).
Proof.
  intros Hxs Hys. induction Hxs as [|x xs Hx Hxs IH]; simpl.
  - constructor.
  - apply NoDup_app.
    + apply Injective_map_NoDup; [ | exact Hys ].
      intros y1 y2 E. congruence.
    + exact IH.
    + intros [a b] Hin1 Hin2. apply in_map_iff in Hin1.
      destruct Hin1 as (y & E & _). inversion E; subst.
      apply in_prod_iff in Hin2. tauto.
Qed.

Lemma countries_NoDup : NoDup countries.
Proof.
  unfold countries.
  repeat (constructor; [ simpl; intuition discriminate | ]). constructor.
Qed.

(** ** C1 *)

Lemma clamped_pair_in_bounds (x : Q) (r : Z) :
  5 <= r ->
  let fully := Py.min 95 x in
  let partially := Py.min 100 (fully + inject_Z r)%Q in
  (0 <= Py.max 0 fully <= 95
   /\ Py.max 0 fully <= Py.max 0 partially
   /\ Py.max 0 partially <= 100)%Q.
Proof.
  intros Hr fully partially. subst fully partially.
  assert (Hq : (5 <= inject_Z r)%Q).
  { change 5%Q with (inject_Z 5). rewrite <- Zle_Qle. exact Hr. }
  py_cases; lra.
Qed.

Lemma row_generated_in_bounds w0 country base_rate start date row :
  row_generated w0 country base_rate start date row -> row_in_bounds row.
Proof.
  intros (_ & _ & w1 & _ & Hf & Hp & _).
  unfold row_in_bounds. rewrite Hf, Hp.
  unfold fully_raw, partially_raw.
  apply clamped_pair_in_bounds.
  pose proof (randint_range 5 15 (snd (NpRandom.normal 0 2 w1))). lia.
Qed.

(** C1. Every row of the table that [generate_vaccination_data] returns,
    whatever the clock and the random draws, has
    0 <= Fully_Vaccinated_Percentage <= 95 and
    Fully_Vaccinated_Percentage <= Partially_Vaccinated_Percentage <= 100. *)
Theorem generated_rows_in_bounds (w : World) :
  Forall row_in_bounds (fst (generate_vaccination_data w)).
Proof.
  destruct (generate_structure w) as (blocks & E & HR & _).
  rewrite E. apply Forall_concat.
  refine (Forall2_Forall_r _ (Forall row_in_bounds) _ _ _ HR).
  intros c block (base_rate & w1 & _ & _ & Hrows).
  refine (Forall2_Forall_r _ _ _ _ _ Hrows).
  intros date row. apply row_generated_in_bounds.
Qed.

(** ** C3 *)

Lemma block_keys w0 country base_rate start dates block :
  Forall2 (row_generated w0 country base_rate start) dates block ->
  map key block = map (fun d => (country, d)) dates.
Proof.
  induction 1 as [|d row dates block (Hd & Hc & _) _ IH]; simpl.
  - reflexivity.
  - unfold key at 1. rewrite Hd, Hc, IH. reflexivity.
Qed.

Lemma blocks_keys w0 start dates cs blocks :
  Forall2 (country_generated w0 start dates) cs blocks ->
  map key (List.concat blocks) = list_prod cs dates.
Proof.
  induction 1 as [|c block cs blocks (b & w1 & _ & _ & Hrows) _ IH]; simpl.
  - reflexivity.
  - rewrite map_app, IH, (block_keys _ _ _ _ _ _ Hrows). reflexivity.
Qed.

Lemma window_days_NoDup (t : Datetime.datetime) :
  forall d1 d2,
    In d1 (Datetime.date_range (t - Datetime.timedelta 365) t) ->
    In d2 (Datetime.date_range (t - Datetime.timedelta 365) t) ->
    Datetime.date_of d1 = Datetime.date_of d2 -> d1 = d2.
Proof.
  intros d1 d2. rewrite date_range_window, !in_map_iff.
  intros (k1 & <- & _) (k2 & <- & _). rewrite !date_of_shift.
  intros E. assert (Z.of_nat k1 = Z.of_nat k2) as -> by lia. reflexivity.
Qed.

Lemma window_NoDup (t : Datetime.datetime) :
  NoDup (Datetime.date_range (t - Datetime.timedelta 365) t).
Proof.
  rewrite date_range_window. apply Injective_map_NoDup_in.
  - intros k1 k2 _ _ E.
    assert (H : Datetime.timedelta (Z.of_nat k1)
                = Datetime.timedelta (Z.of_nat k2)) by lia.
    unfold Datetime.timedelta, Datetime.US_PER_DAY in H. lia.
  - apply seq_NoDup.
Qed.

Lemma generated_keys (w : World) :
  map key (fst (generate_vaccination_data w))
  = list_prod countries
      (Datetime.date_range (clock w - Datetime.timedelta 365) (clock w)).
Proof.
  destruct (generate_structure w) as (blocks & E & HR & _).
  rewrite E. apply (blocks_keys _ _ _ _ _ HR).
Qed.

Lemma now_in_window (t : Datetime.datetime) :
  In t (Datetime.date_range (t - Datetime.timedelta 365) t).
Proof.
  rewrite date_range_window. apply in_map_iff. exists 365%nat. split.
  - unfold Datetime.timedelta. lia.
  - apply in_seq. lia.
Qed.

(** C3. The generated table has one row per pair of a country and a date
    of the window, in the order of the two loops: its row count is the
    number of countries times the number of dates of the window. The
    window runs from 365 days before now up to now, both ends included,
    which makes 366 dates, on 366 different calendar days, and
    12 * 366 = 4392 rows. *)
Theorem generated_row_count (w : World) :
  let df := fst (generate_vaccination_data w) in
  let dates :=
    Datetime.date_range (clock w - Datetime.timedelta 365) (clock w) in
  map key df = list_prod countries dates
  /\ NoDup (map (fun r => (Country r, Datetime.date_of (Date r))) df)
  /\ List.length df = (List.length countries * List.length dates)%nat
  /\ List.length dates = 366%nat
  /\ List.length df = 4392%nat.
Proof.
  intros df dates.
  assert (Hkeys : map key df = list_prod countries dates)
    by apply generated_keys.
  assert (Hdates : List.length dates = 366%nat).
  { unfold dates. rewrite date_range_window, length_map, length_seq.
    reflexivity. }
  assert (Hlen : List.length df
                 = (List.length countries * List.length dates)%nat).
  { rewrite <- length_prod, <- Hkeys, length_map. reflexivity. }
  split; [ exact Hkeys | ]. split; [ | split; [ exact Hlen | ] ].
  - replace (map (fun r => (Country r, Datetime.date_of (Date r))) df)
      with (map (fun k => (fst k, Datetime.date_of (snd k))) (map key df))
      by (rewrite map_map; reflexivity).
    rewrite Hkeys. apply Injective_map_NoDup_in.
    + intros [c1 d1] [c2 d2] H1 H2 Heq. simpl in Heq.
      apply in_prod_iff in H1, H2. inversion Heq as [[Hc Hd]].
      f_equal. apply (window_days_NoDup (clock w)); tauto.
    + apply NoDup_list_prod; [ apply countries_NoDup | apply window_NoDup ].
  - split; [ exact Hdates | ]. rewrite Hlen, Hdates. reflexivity.
Qed.

(** ** C4 *)

Lemma Forall2_impl_in {A B} (R1 R2 : A -> B -> Prop) (xs : list A)
    (ys : list B) :
  (forall x y, In x xs -> R1 x y -> R2 x y) ->
  Forall2 R1 xs ys -> Forall2 R2 xs ys.
Proof.
  intros Himp H. induction H as [|x y xs ys Hxy _ IH]; constructor.
  - apply Himp; [ left; reflexivity | exact Hxy ].
  - apply IH. intros x' y' Hin. apply Himp. right. exact Hin.
Qed.

Lemma Forall2_In_l {A B} (R : A -> B -> Prop) (xs : list A) (ys : list B)
    (x : A) :
  Forall2 R xs ys -> In x xs -> exists y, In y ys /\ R x y.
Proof.
  induction 1 as [|x' y xs ys Hxy _ IH]; intros Hin.
  - destruct Hin.
  - destruct Hin as [-> | Hin].
    + exists y. split; [ left; reflexivity | exact Hxy ].
    + destruct (IH Hin) as (y' & Hy' & HR). exists y'. split; auto.
      right. exact Hy'.
Qed.

Lemma Forall2_Forall_in_r {A B} (R : A -> B -> Prop) (xs : list A)
    (ys : list B) :
  Forall2 R xs ys -> Forall (fun y => exists x, In x xs /\ R x y) ys.
Proof.
  induction 1 as [|x y xs ys Hxy _ IH]; constructor.
  - exists x. split; [ left; reflexivity | exact Hxy ].
  - apply (Forall_impl _ (P := fun y => exists x, In x xs /\ R x y));
      [ | exact IH ].
    intros y' (x' & Hin & HR). exists x'. split; [ right | ]; assumption.
Qed.

Lemma choose_base_rates w0 start dates cs blocks :
  NoDup cs ->
  Forall2 (country_generated w0 start dates) cs blocks ->
  exists base_rate,
    Forall2 (country_generated_with w0 start dates base_rate) cs blocks.
Proof.
  intros Hnd H. induction H as [|c block cs blocks Hc _ IH].
  - exists (fun _ => 0). constructor.
  - inversion Hnd as [|c' cs' Hnotin Hnd']; subst.
    destruct (IH Hnd') as (f & Hf).
    destruct Hc as (b & w1 & Hw1 & Hb & Hrows).
    exists (fun c' => if (c' =? c)%string then b else f c').
    constructor.
    + unfold country_generated_with. rewrite String.eqb_refl.
      split; [ exists w1; auto | exact Hrows ].
    + refine (Forall2_impl_in _ _ _ _ _ Hf).
      intros c' block' Hin Hgen. unfold country_generated_with in *.
      destruct (String.eqb_spec c' c) as [-> | Hne]; [ contradiction | ].
      exact Hgen.
Qed.

Lemma row_generated_follows_formula (w0 : World) (base_rate : string -> Z)
    (country : string) (date : Datetime.datetime) (row : Row) :
  In date (Datetime.date_range (clock w0 - Datetime.timedelta 365) (clock w0)) ->
  row_generated w0 country (base_rate country)
                (clock w0 - Datetime.timedelta 365) date row ->
  row_follows_formula w0 (clock w0 - Datetime.timedelta 365) base_rate row.
Proof.
  intros Hin (Hd & Hc & w1 & Hw1 & Hf & Hp & _).
  exists w1. split; [ exact Hw1 | ]. cbv zeta. rewrite Hd, Hc.
  rewrite date_range_window in Hin. apply in_map_iff in Hin.
  destruct Hin as (k & <- & Hk). apply in_seq in Hk.
  rewrite days_shift in *.
  split; [ lia | ].
  split; [ apply randint_range; lia | ].
  split; [ exact Hf | exact Hp ].
Qed.

Lemma pick_base_rate_other (c : string) (w : World) :
  c <> "USA"%string -> c <> "India"%string -> c <> "Brazil"%string ->
  pick_base_rate c w = NpRandom.randint 60 85 w.
Proof.
  intros H1 H2 H3. unfold pick_base_rate.
  destruct (String.eqb_spec c "USA"); [ contradiction | ].
  destruct (String.eqb_spec c "India"); [ contradiction | ].
  destruct (String.eqb_spec c "Brazil"); [ contradiction | ].
  reflexivity.
Qed.

(** C4, as the code has it. One base rate per country, the same for all
    its days: 75 for USA, 65 for India, 70 for Brazil and, for every other
    country, one draw of [randint(60, 85)], an integer from 60 to 84. For
    each day, with the noise [normal(0, 2)] and the gap [randint(5, 15)]
    drawn one after the other, fully = min(95, base_rate + 0.1 * day_offset
    + noise); the row stores max(0, fully) and
    max(0, min(100, fully + gap)), the gap being added to the value of
    fully before the clamp at 0. *)
Theorem generated_rows_follow_formula (w : World) :
  let df := fst (generate_vaccination_data w) in
  let start := clock w - Datetime.timedelta 365 in
  exists base_rate : string -> Z,
    base_rate "USA"%string = 75
    /\ base_rate "India"%string = 65
    /\ base_rate "Brazil"%string = 70
    /\ (forall c,
          In c countries ->
          c <> "USA"%string -> c <> "India"%string -> c <> "Brazil"%string ->
          60 <= base_rate c <= 84
          /\ exists w1, draws_only w w1
                        /\ base_rate c = fst (NpRandom.randint 60 85 w1))
    /\ Forall (row_follows_formula w start base_rate) df.
Proof.
  intros df start.
  destruct (generate_structure w) as (blocks & E & HR & _).
  fold start in HR.
  destruct (choose_base_rates _ _ _ _ _ countries_NoDup HR) as (f & Hf).
  assert (Hpick : forall c, In c countries ->
            exists w1, draws_only w w1 /\ f c = fst (pick_base_rate c w1)).
  { intros c Hin. destruct (Forall2_In_l _ _ _ c Hf Hin) as (b & _ & H & _).
    exact H. }
  exists f.
  split. { destruct (Hpick "USA"%string) as (w1 & _ & ->);
           [ simpl; tauto | reflexivity ]. }
  split. { destruct (Hpick "India"%string) as (w1 & _ & ->);
           [ simpl; tauto | reflexivity ]. }
  split. { destruct (Hpick "Brazil"%string) as (w1 & _ & ->);
           [ simpl; tauto | reflexivity ]. }
  split.
  - intros c Hin H1 H2 H3. destruct (Hpick c Hin) as (w1 & Hw1 & Hb).
    rewrite pick_base_rate_other in Hb by assumption.
    split.
    + rewrite Hb. pose proof (randint_range 60 85 w1). lia.
    + exists w1. auto.
  - unfold df. rewrite E. apply Forall_concat.
    refine (Forall2_Forall_r _ (Forall _) _ _ _ Hf).
    intros c block (_ & Hrows).
    apply Forall2_Forall_in_r in Hrows.
    refine (Forall_impl _ _ Hrows).
    intros row (d & Hd & Hrow).
    apply (row_generated_follows_formula w f c d row Hd Hrow).
Qed.

(** C4, as stated, fails on two counts. No draw gives the base rate 85,
    the upper end of the stated range. And on the tape [far_below] the
    first row (USA, day offset 0) has fully = min(95, 75 + 0 - 100) = -25,
    stored as 0, and partially = min(100, -25 + 5) = -20, stored as 0:
    the stored partial percentage is min(100, fully + gap) for no gap of
    5..14, neither with the stored value of fully nor with its value
    before the clamp. *)
Lemma partially_is_not_min_of_fully_plus_gap :
  (forall w, fst (pick_base_rate "UK" w) <> 85)
  /\ exists row,
      hd_error (fst (generate_vaccination_data far_below)) = Some row
      /\ Country row = "USA"%string
      /\ Datetime.days (Date row - (a_clock - Datetime.timedelta 365)) = 0
      /\ (Fully_Vaccinated_Percentage row == 0)%Q
      /\ (Partially_Vaccinated_Percentage row == 0)%Q
      /\ forall r,
          5 <= r < 15 ->
          ~ (Partially_Vaccinated_Percentage row
             == Py.min 100 (Fully_Vaccinated_Percentage row + inject_Z r))%Q
          /\ ~ (Partially_Vaccinated_Percentage row
                == Py.min 100 (fully_raw 75 0 (-100) + inject_Z r))%Q.
Proof.
  split.
  - intros w. change (pick_base_rate "UK" w) with (NpRandom.randint 60 85 w).
    pose proof (randint_range 60 85 w). lia.
  - eexists. split; [ vm_compute; reflexivity | ].
    cbn [Country Date Fully_Vaccinated_Percentage
         Partially_Vaccinated_Percentage].
    split; [ reflexivity | ]. split; [ reflexivity | ].
    split; [ reflexivity | ]. split; [ reflexivity | ].
    intros r Hr.
    assert (H5 : (5 <= inject_Z r)%Q).
    { change 5%Q with (inject_Z 5). rewrite <- Zle_Qle. lia. }
    assert (H15 : (inject_Z r < 15)%Q).
    { change 15%Q with (inject_Z 15). rewrite <- Zlt_Qlt. lia. }
    unfold fully_raw. change (inject_Z 75) with 75%Q.
    change (inject_Z 0) with 0%Q.
    split; py_cases; lra.
Qed.

(** With no noise the row of USA at day offset 10 stores
    75 + 0.1 * 10 = 76, and 76 + 5 = 81 for the partial percentage. *)
Example usa_day_10_without_noise :
  exists row,
    nth_error (fst (generate_vaccination_data zero_tape)) 10 = Some row
    /\ Country row = "USA"%string
    /\ Datetime.days (Date row - (a_clock - Datetime.timedelta 365)) = 10
    /\ (Fully_Vaccinated_Percentage row == 76)%Q
    /\ (Partially_Vaccinated_Percentage row == 81)%Q.
Proof.
  eexists. split; [ vm_compute; reflexivity | ].
  repeat split.
Qed.

(** ** C2 and C9: the filtering step *)

Lemma isin_In (x : string) (xs : list string) :
  isin x xs = true <-> In x xs.
Proof.
  unfold isin. rewrite existsb_exists. split.
  - intros (y & Hy & E). apply String.eqb_eq in E. subst. exact Hy.
  - intros H. exists x. split; [ exact H | apply String.eqb_refl ].
Qed.

Lemma date_mask_spec (a b : Datetime.date) (r : Row) :
  date_mask a b r = true
  <-> a <= Datetime.date_of (Date r) <= b.
Proof. unfold date_mask. rewrite andb_true_iff, !Z.leb_le. tauto. Qed.

Lemma filter_filter {A} (f g : A -> bool) (l : list A) :
  filter f (filter g l) = filter (fun x => g x && f x) l.
Proof.
  induction l as [|x l IH]; simpl; [ reflexivity | ].
  destruct (g x); simpl; rewrite IH; reflexivity.
Qed.

(** C2. The filtered table is the rows of the table, in their order, that
    pass both tests: the calendar day of the row is in [start_date,
    end_date], both ends included, and the country passes. With a
    non-empty selection without the sentinel only rows of a selected
    country pass; with the sentinel in the selection the country test
    keeps every row. *)
Theorem filter_data_exact (selected_countries : list string)
    (start_date end_date : Datetime.date) (df : DataFrame) :
  let df_filtered := filter_data selected_countries start_date end_date df in
  (exists keep : Row -> bool,
      df_filtered = filter keep df
      /\ forall r,
          keep r = true
          <-> (start_date <= Datetime.date_of (Date r) <= end_date
               /\ (In all_countries selected_countries
                   \/ selected_countries = []
                   \/ In (Country r) selected_countries)))
  /\ (forall r, In r df_filtered ->
                In r df
                /\ start_date <= Datetime.date_of (Date r) <= end_date)
  /\ (selected_countries <> [] ->
      ~ In all_countries selected_countries ->
      forall r, In r df_filtered <->
                In r df
                /\ In (Country r) selected_countries
                /\ start_date <= Datetime.date_of (Date r) <= end_date)
  /\ (In all_countries selected_countries ->
      df_filtered = filter (date_mask start_date end_date) df).
Proof.
  intros df_filtered. subst df_filtered. unfold filter_data.
  destruct (isin all_countries selected_countries) eqn:Hall; simpl negb;
    cbv beta iota.
  - (* the sentinel is selected *)
    simpl andb. cbv iota.
    assert (Hin : In all_countries selected_countries)
      by (apply isin_In; exact Hall).
    split; [ | split; [ | split ] ].
    + exists (date_mask start_date end_date). split; [ reflexivity | ].
      intros r. rewrite date_mask_spec. tauto.
    + intros r Hr. apply filter_In in Hr. rewrite date_mask_spec in Hr.
      exact Hr.
    + intros _ Hnot. contradiction.
    + reflexivity.
  - assert (Hnot : ~ In all_countries selected_countries).
    { intros H. apply isin_In in H. congruence. }
    destruct selected_countries as [|c cs]; simpl andb; cbv iota.
    + (* nothing selected *)
      split; [ | split; [ | split ] ].
      * exists (date_mask start_date end_date). split; [ reflexivity | ].
        intros r. rewrite date_mask_spec. tauto.
      * intros r Hr. apply filter_In in Hr. rewrite date_mask_spec in Hr.
        exact Hr.
      * intros Hne. contradiction.
      * intros [].
    + (* a proper selection *)
      rewrite filter_filter.
      split; [ | split; [ | split ] ].
      * eexists. split; [ reflexivity | ].
        intros r. cbv beta.
        rewrite andb_true_iff, isin_In, date_mask_spec.
        split; [ tauto | ].
        intros (Hd & [H | [H | H]]);
          [ contradiction | discriminate | tauto ].
      * intros r Hr. apply filter_In in Hr.
        rewrite andb_true_iff, date_mask_spec in Hr. tauto.
      * intros _ _ r. rewrite filter_In, andb_true_iff, isin_In,
          date_mask_spec. tauto.
      * intros H. contradiction.
Qed.

Lemma filter_data_exact_witness :
  ["USA"%string] <> []
  /\ ~ In all_countries ["USA"%string]
  /\ filter_data ["USA"%string] (Datetime.date_of a_clock - 1)
                 (Datetime.date_of a_clock) sample_table
     = [ sample_row (a_clock - Datetime.timedelta 1) "USA" 76;
         sample_row a_clock "USA" 77 ]
  /\ forall r,
      In r (filter_data ["USA"%string] (Datetime.date_of a_clock - 1)
                        (Datetime.date_of a_clock) sample_table)
      <-> In r sample_table
          /\ In (Country r) ["USA"%string]
          /\ Datetime.date_of a_clock - 1 <= Datetime.date_of (Date r)
             <= Datetime.date_of a_clock.
Proof.
  assert (Hne : ["USA"%string] <> []) by discriminate.
  assert (Hnot : ~ In all_countries ["USA"%string])
    by (simpl; intros [H | []]; discriminate).
  split; [ exact Hne | ]. split; [ exact Hnot | ].
  split; [ vm_compute; reflexivity | ].
  destruct (filter_data_exact ["USA"%string] (Datetime.date_of a_clock - 1)
              (Datetime.date_of a_clock) sample_table) as (_ & _ & Hsel & _).
  exact (Hsel Hne Hnot).
Defined.

(** C9. With nothing selected the country test is skipped: the filtered
    table is the date mask alone, the same table as with the sentinel
    selected, so every row of the table whose day is in the range is kept,
    whatever its country; on the generated table, every one of its twelve
    countries has a row in the filtered table as soon as the range holds
    today. Testing membership in the empty selection would keep no
    row. *)
Theorem empty_selection_keeps_all_countries
    (start_date end_date : Datetime.date) (df : DataFrame) :
  filter_data [] start_date end_date df
  = filter (date_mask start_date end_date) df
  /\ filter_data [] start_date end_date df
     = filter_data [all_countries] start_date end_date df
  /\ (forall r, In r df ->
                start_date <= Datetime.date_of (Date r) <= end_date ->
                In r (filter_data [] start_date end_date df))
  /\ (forall w c,
        In c countries ->
        start_date <= Datetime.date_of (clock w) <= end_date ->
        exists r,
          In r (filter_data [] start_date end_date
                            (fst (generate_vaccination_data w)))
          /\ Country r = c)
  /\ filter (date_mask start_date end_date)
            (filter (fun r => isin (Country r) []) df) = [].
Proof.
  assert (Hkeep : forall table r,
             In r table ->
             start_date <= Datetime.date_of (Date r) <= end_date ->
             In r (filter_data [] start_date end_date table)).
  { intros table r Hin Hd. unfold filter_data. cbn [isin existsb truthy negb andb].
    apply filter_In. split; [ exact Hin | apply date_mask_spec; exact Hd ]. }
  split; [ reflexivity | ]. split; [ reflexivity | ].
  split; [ apply Hkeep | ]. split.
  - intros w c Hc Hd.
    assert (Hk : In (c, clock w) (map key (fst (generate_vaccination_data w)))).
    { rewrite generated_keys. apply in_prod; [ exact Hc | ].
      apply now_in_window. }
    apply in_map_iff in Hk. destruct Hk as (r & Hkey & Hin).
    inversion Hkey as [[Hcr Hdr]]. exists r. split; [ | reflexivity ].
    apply Hkeep; [ exact Hin | rewrite Hdr; exact Hd ].
  - rewrite filter_filter. induction df as [|r df IH]; simpl; auto.
Qed.

(** ** C6: the guarded loader *)


Lemma call_generate (w : World) :
  call generate_vaccination_data w
  = (Ok (fst (generate_vaccination_data w)),
     snd (generate_vaccination_data w)).
Proof.
  unfold call. destruct (generate_vaccination_data w). reflexivity.
Qed.

Lemma fetch_unfold (w : World) :
  fetch_real_vaccination_data (call generate_vaccination_data) w
  = (Ok (fst (generate_vaccination_data w)),
     snd (generate_vaccination_data w)).
Proof.
  unfold fetch_real_vaccination_data, try_except.
  rewrite call_generate. reflexivity.
Qed.






(** ** C10: the data of the Global Map page *)

Lemma build_geo_data_values (w : World) :
  map geo_values (fst (build_geo_data w)) = map (geo_samples w) (seq 0 10)
  /\ map geo_Country (fst (build_geo_data w)) = countries_geo
  /\ snd (build_geo_data w) = advance 40 w.
Proof. repeat split. Qed.

(** C10. The map data of a rendering is read from the random draws alone:
    with the table loaded, [main] on the Global Map page returns the same
    rows whatever the table, the date range and the selected countries, and
    with no table loaded it returns the rows built from the draws that
    follow the generation. The numbers of the rows are the forty numbers
    that the calls of [np.random] return at the next forty draws, which a
    rendering uses up, so the next rendering samples anew; two renderings
    whose sampled numbers differ show different map data. *)
Theorem map_data_from_draws_alone :
  (forall start_date end_date selected_countries df w,
      main (mkSidebar GlobalMap start_date end_date selected_countries)
           (Some df) w
      = (Ok (GlobalMapView (fst (build_geo_data w)), Some df),
         snd (build_geo_data w)))
  /\ (forall start_date end_date selected_countries w,
        let w' := snd (generate_vaccination_data w) in
        main (mkSidebar GlobalMap start_date end_date selected_countries)
             None w
        = (Ok (GlobalMapView (fst (build_geo_data w')),
               Some (fst (generate_vaccination_data w))),
           snd (build_geo_data w')))
  /\ (forall w,
        map geo_values (fst (build_geo_data w))
        = map (geo_samples w) (seq 0 10)
        /\ snd (build_geo_data w) = advance 40 w)
  /\ (forall w1 w2,
        (exists k, (k < 10)%nat /\ geo_samples w1 k <> geo_samples w2 k) ->
        fst (build_geo_data w1) <> fst (build_geo_data w2)).
Proof.
  split; [ | split; [ | split ] ].
  - intros a b sel df w. unfold main, load_data, ebind, eret, call.
    cbn [selected]. cbv beta iota.
    destruct (build_geo_data w). reflexivity.
  - intros a b sel w w'. unfold main, load_data, ebind, eret, call.
    rewrite fetch_unfold. cbn [selected]. cbv beta iota.
    fold w'. destruct (build_geo_data w'). reflexivity.
  - intros w. destruct (build_geo_data_values w) as (Hv & _ & Hw). auto.
  - intros w1 w2 (k & Hk & Hne) E. apply Hne.
    assert (Hmap : map (geo_samples w1) (seq 0 10)
                   = map (geo_samples w2) (seq 0 10)).
    { rewrite <- (proj1 (build_geo_data_values w1)),
              <- (proj1 (build_geo_data_values w2)), E. reflexivity. }
    apply (proj1 (map_ext_in_iff) Hmap). apply in_seq. lia.
Qed.

Lemma map_data_from_draws_alone_witness :
  geo_samples zero_tape 0 <> geo_samples half_tape 0
  /\ fst (build_geo_data zero_tape) <> fst (build_geo_data half_tape).
Proof.
  assert (Hne : geo_samples zero_tape 0 <> geo_samples half_tape 0).
  { intros E. apply (f_equal (fun s => Qnum (snd (fst (fst s))))) in E.
    vm_compute in E. discriminate E. }
  split; [ exact Hne | ].
  destruct map_data_from_draws_alone as (_ & _ & _ & Hdiff).
  apply (Hdiff zero_tape half_tape).
  exists 0%nat. split; [ lia | exact Hne ].
Defined.

(** ** C7: the latest record of each country *)

(** *** sort_values *)

Lemma insert_by_date_perm (r : Row) (df : DataFrame) :
  Permutation (r :: df) (insert_by_date r df).
Proof.
  induction df as [|r' df IH]; simpl.
  - apply Permutation_refl.
  - destruct (Date r <? Date r').
    + apply Permutation_refl.
    + apply perm_trans with (r' :: r :: df);
        [ apply perm_swap | apply perm_skip; exact IH ].
Qed.

Lemma insert_by_date_sorted (r : Row) (df : DataFrame) :
  StronglySorted date_le df -> StronglySorted date_le (insert_by_date r df).
Proof.
  induction 1 as [|r' df Hs IH Hall]; simpl.
  - constructor; constructor.
  - destruct (Z.ltb_spec (Date r) (Date r')) as [Hlt | Hge].
    + constructor; [ constructor; assumption | ].
      constructor; [ unfold date_le; lia | ].
      refine (Forall_impl _ _ Hall). unfold date_le. intros x Hx. lia.
    + constructor; [ exact IH | ].
      apply (Permutation_Forall (insert_by_date_perm r df)).
      constructor; [ exact Hge | exact Hall ].
Qed.

Lemma sort_values_is_sorted (df : DataFrame) :
  is_sorted_by_date df (sort_values df).
Proof.
  unfold sort_values, is_sorted_by_date.
  assert (G : forall rows acc,
             StronglySorted date_le acc ->
             Permutation (rows ++ acc)
               (fold_left (fun sorted r => insert_by_date r sorted) rows acc)
             /\ StronglySorted date_le
                  (fold_left (fun sorted r => insert_by_date r sorted)
                             rows acc)).
  { induction rows as [|r rows IH]; intros acc Hacc; simpl.
    - split; [ apply Permutation_refl | exact Hacc ].
    - destruct (IH (insert_by_date r acc) (insert_by_date_sorted r acc Hacc))
        as (Hp & Hs).
      split; [ | exact Hs ].
      apply perm_trans with (rows ++ insert_by_date r acc); [ | exact Hp ].
      apply perm_trans with (rows ++ r :: acc).
      + apply Permutation_middle.
      + apply Permutation_app_head. apply insert_by_date_perm. }
  destruct (G df [] (SSorted_nil _)) as (Hp & Hs).
  rewrite app_nil_r in Hp. split; assumption.
Qed.

(** *** The group keys *)

Lemma ascii_compare_lt_trans (a b c : Ascii.ascii) :
  Ascii.compare a b = Lt -> Ascii.compare b c = Lt -> Ascii.compare a c = Lt.
Proof.
  unfold Ascii.compare. rewrite !N.compare_lt_iff. apply N.lt_trans.
Qed.

Lemma key_lt_trans (a b c : string) : key_lt a b -> key_lt b c -> key_lt a c.
Proof.
  unfold key_lt. revert b c.
  induction a as [|x a IH]; intros [|y b] [|z c]; simpl; try discriminate;
    try reflexivity.
  destruct (Ascii.compare x y) eqn:Exy; try discriminate;
    destruct (Ascii.compare y z) eqn:Eyz; try discriminate; intros H1 H2.
  - apply Ascii.compare_eq_iff in Exy, Eyz. subst.
    replace (Ascii.compare z z) with Eq; [ eauto | ].
    symmetry. unfold Ascii.compare. apply N.compare_refl.
  - apply Ascii.compare_eq_iff in Exy. subst. rewrite Eyz. reflexivity.
  - apply Ascii.compare_eq_iff in Eyz. subst. rewrite Exy. reflexivity.
  - rewrite (ascii_compare_lt_trans _ _ _ Exy Eyz). reflexivity.
Qed.

Lemma key_lt_irrefl (a : string) : ~ key_lt a a.
Proof.
  unfold key_lt. intros H. pose proof (String.compare_antisym a a) as Ha.
  rewrite H in Ha. discriminate.
Qed.

Lemma insert_key_In (k x : string) (keys : list string) :
  In x (insert_key k keys) <-> x = k \/ In x keys.
Proof.
  induction keys as [|k' keys IH]; simpl.
  - intuition.
  - destruct (String.compare k k') eqn:E; simpl.
    + apply String.compare_eq_iff in E. subst. intuition.
    + intuition.
    + rewrite IH. intuition.
Qed.

Lemma insert_key_sorted (k : string) (keys : list string) :
  StronglySorted key_lt keys -> StronglySorted key_lt (insert_key k keys).
Proof.
  induction 1 as [|k' keys Hs IH Hall]; simpl.
  - constructor; constructor.
  - destruct (String.compare k k') eqn:E.
    + constructor; assumption.
    + constructor; [ constructor; assumption | ].
      constructor; [ exact E | ].
      refine (Forall_impl _ _ Hall). intros x Hx.
      apply (key_lt_trans k k' x E Hx).
    + constructor; [ exact IH | ].
      apply Forall_forall. intros x Hx. apply insert_key_In in Hx.
      destruct Hx as [-> | Hx].
      * unfold key_lt. rewrite String.compare_antisym, E. reflexivity.
      * rewrite Forall_forall in Hall. auto.
Qed.

Lemma group_keys_spec (df : DataFrame) :
  StronglySorted key_lt (group_keys df)
  /\ forall c, In c (group_keys df) <-> In c (map Country df).
Proof.
  unfold group_keys.
  assert (G : forall rows keys,
             StronglySorted key_lt keys ->
             StronglySorted key_lt
               (fold_left (fun ks r => insert_key (Country r) ks) rows keys)
             /\ forall c,
                 In c (fold_left (fun ks r => insert_key (Country r) ks)
                                 rows keys)
                 <-> In c (map Country rows) \/ In c keys).
  { induction rows as [|r rows IH]; intros keys Hs; simpl.
    - split; [ exact Hs | intuition ].
    - destruct (IH _ (insert_key_sorted (Country r) keys Hs)) as (Hs' & Hin).
      split; [ exact Hs' | ].
      intros c. rewrite Hin, insert_key_In. intuition. }
  destruct (G df [] (SSorted_nil _)) as (Hs & Hin).
  split; [ exact Hs | ]. intros c. rewrite Hin. simpl. tauto.
Qed.

Lemma key_sorted_NoDup (keys : list string) :
  StronglySorted key_lt keys -> NoDup keys.
Proof.
  induction 1 as [|k keys Hs IH Hall]; constructor; [ | exact IH ].
  intros Hin. rewrite Forall_forall in Hall.
  apply (key_lt_irrefl k). apply Hall. exact Hin.
Qed.

(** *** The last row of a group *)

Lemma groupby_last_In (df : DataFrame) (r : Row) :
  In r (groupby_last df)
  <-> exists key, In key (group_keys df) /\ last_of_group key df = Some r.
Proof.
  unfold groupby_last, last_of_group. rewrite in_flat_map.
  split; intros (key & Hk & H); exists key; (split; [ exact Hk | ]);
    destruct (rev (group key df)) as [|r0 rest]; simpl in *.
  - destruct H.
  - destruct H as [-> | []]. reflexivity.
  - discriminate.
  - inversion H. left. reflexivity.
Qed.

Lemma last_of_group_In (key : string) (df : DataFrame) (r : Row) :
  last_of_group key df = Some r -> In r df /\ Country r = key.
Proof.
  unfold last_of_group. destruct (rev (group key df)) as [|r0 rest] eqn:E;
    [ discriminate | ].
  intros H. inversion H; subst r0.
  assert (Hin : In r (group key df)).
  { apply in_rev. rewrite E. left. reflexivity. }
  unfold group in Hin. apply filter_In in Hin. destruct Hin as (Hin & Hc).
  apply String.eqb_eq in Hc. auto.
Qed.

Lemma last_of_group_some (key : string) (df : DataFrame) :
  In key (map Country df) -> exists r, last_of_group key df = Some r.
Proof.
  intros Hin. apply in_map_iff in Hin. destruct Hin as (r0 & Hc & Hin).
  assert (Hg : In r0 (group key df)).
  { unfold group. apply filter_In. split; [ exact Hin | ].
    apply String.eqb_eq. exact Hc. }
  unfold last_of_group. apply in_rev in Hg.
  destruct (rev (group key df)) as [|r rest]; [ destruct Hg | ].
  exists r. reflexivity.
Qed.

Lemma StronglySorted_filter {A} (R : A -> A -> Prop) (f : A -> bool)
    (l : list A) :
  StronglySorted R l -> StronglySorted R (filter f l).
Proof.
  induction 1 as [|x l Hs IH Hall]; simpl; [ constructor | ].
  destruct (f x); [ | exact IH ].
  constructor; [ exact IH | ].
  apply Forall_forall. intros y Hy. apply filter_In in Hy.
  rewrite Forall_forall in Hall. apply Hall. tauto.
Qed.

Lemma sorted_last_is_max (l : DataFrame) (r : Row) :
  StronglySorted date_le (l ++ [r]) ->
  forall x, In x (l ++ [r]) -> Date x <= Date r.
Proof.
  induction l as [|y l IH]; simpl; intros Hs x Hx.
  - destruct Hx as [-> | []]. lia.
  - apply StronglySorted_inv in Hs. destruct Hs as (Hs & Hall).
    destruct Hx as [-> | Hx].
    + rewrite Forall_forall in Hall. apply Hall.
      apply in_or_app. right. left. reflexivity.
    + apply (IH Hs x Hx).
Qed.

Lemma last_of_group_is_max (key : string) (df : DataFrame) (r : Row) :
  StronglySorted date_le df ->
  last_of_group key df = Some r ->
  forall x, In x df -> Country x = key -> Date x <= Date r.
Proof.
  intros Hs Hlast x Hx Hc. unfold last_of_group in Hlast.
  destruct (rev (group key df)) as [|r0 rest] eqn:E; [ discriminate | ].
  inversion Hlast; subst r0.
  assert (Eg : group key df = rev rest ++ [r]).
  { rewrite <- (rev_involutive (group key df)), E. reflexivity. }
  apply (sorted_last_is_max (rev rest) r).
  - rewrite <- Eg. apply StronglySorted_filter. exact Hs.
  - rewrite <- Eg. unfold group. apply filter_In. split; [ exact Hx | ].
    apply String.eqb_eq. exact Hc.
Qed.

Lemma groupby_last_countries (df : DataFrame) :
  map Country (groupby_last df) = group_keys df.
Proof.
  unfold groupby_last.
  assert (G : forall keys,
             (forall k, In k keys -> In k (map Country df)) ->
             map Country
               (flat_map (fun key => match rev (group key df) with
                                     | [] => []
                                     | r :: _ => [r]
                                     end) keys) = keys).
  { induction keys as [|k keys IH]; intros Hk; simpl; [ reflexivity | ].
    rewrite map_app, IH by (intros; apply Hk; right; assumption).
    destruct (last_of_group_some k df (Hk k (or_introl eq_refl))) as (r & Hr).
    destruct (last_of_group_In k df r Hr) as (_ & Hc).
    unfold last_of_group in Hr.
    destruct (rev (group k df)) as [|r0 rest]; [ discriminate | ].
    inversion Hr; subst r0. simpl. rewrite Hc. reflexivity. }
  apply G. intros k. apply (proj2 (group_keys_spec df)).
Qed.

(** C7. Whatever order [sort_values] leaves rows of equal date in, the
    country comparison keeps one record per country of the filtered table,
    in the order of the country names, each a row of the filtered table;
    and for every country of the table the record kept is a row of that
    country whose date is the greatest among the rows of that country.
    [latest_data] is the case of the sort of this development. *)
Theorem latest_record_per_country (df_filtered sorted : DataFrame) :
  is_sorted_by_date df_filtered sorted ->
  (forall c,
      In c (map Country df_filtered) ->
      exists r,
        In r (groupby_last sorted)
        /\ In r df_filtered
        /\ Country r = c
        /\ (forall r', In r' df_filtered -> Country r' = c ->
                       Date r' <= Date r)
        /\ (forall r2, In r2 (groupby_last sorted) -> Country r2 = c ->
                       r2 = r))
  /\ (forall r, In r (groupby_last sorted) -> In r df_filtered)
  /\ NoDup (map Country (groupby_last sorted))
  /\ StronglySorted key_lt (map Country (groupby_last sorted))
  /\ (sorted = sort_values df_filtered ->
      groupby_last sorted = latest_data df_filtered).
Proof.
  intros (Hperm & Hsorted).
  assert (Hback : forall r, In r sorted -> In r df_filtered).
  { intros r. apply Permutation_in. apply Permutation_sym. exact Hperm. }
  destruct (group_keys_spec sorted) as (Hks & Hkin).
  split; [ | split; [ | split; [ | split ] ] ].
  - intros c Hc.
    assert (Hc' : In c (map Country sorted)).
    { revert Hc. apply Permutation_in. apply Permutation_map. exact Hperm. }
    destruct (last_of_group_some c sorted Hc') as (r & Hr).
    destruct (last_of_group_In c sorted r Hr) as (Hin & Hcr).
    exists r. split; [ | split; [ | split; [ | split ] ] ].
    + apply groupby_last_In. exists c. split; [ apply Hkin; exact Hc' | ].
      exact Hr.
    + apply Hback. exact Hin.
    + exact Hcr.
    + intros r' Hr' Hcr'.
      apply (last_of_group_is_max c sorted r Hsorted Hr); [ | exact Hcr' ].
      revert Hr'. apply Permutation_in. exact Hperm.
    + intros r2 Hr2 Hc2. apply groupby_last_In in Hr2.
      destruct Hr2 as (k & _ & Hlast).
      destruct (last_of_group_In k sorted r2 Hlast) as (_ & Hk).
      assert (k = c) by congruence. subst k. congruence.
  - intros r Hr. apply groupby_last_In in Hr. destruct Hr as (k & _ & Hlast).
    apply Hback. apply (last_of_group_In k sorted r Hlast).
  - rewrite groupby_last_countries. apply key_sorted_NoDup. exact Hks.
  - rewrite groupby_last_countries. exact Hks.
  - intros ->. reflexivity.
Qed.

Lemma latest_record_per_country_witness :
  is_sorted_by_date sample_table (sort_values sample_table)
  /\ latest_data sample_table
     = [ sample_row a_clock "India" 66; sample_row a_clock "USA" 77 ]
  /\ exists r,
      In r (groupby_last (sort_values sample_table))
      /\ In r sample_table
      /\ Country r = "USA"%string
      /\ (forall r', In r' sample_table -> Country r' = "USA"%string ->
                     Date r' <= Date r)
      /\ (forall r2, In r2 (groupby_last (sort_values sample_table)) ->
                     Country r2 = "USA"%string -> r2 = r).
Proof.
  split; [ apply sort_values_is_sorted | ].
  split; [ vm_compute; reflexivity | ].
  destruct (latest_record_per_country sample_table (sort_values sample_table)
              (sort_values_is_sorted sample_table)) as (Hmax & _).
  apply Hmax. simpl. tauto.
Defined.

(** ** The vaccine type of a row *)

(** Every generated row names one of the five vaccine types. *)
Lemma generated_vaccine_types (w : World) :
  Forall (fun r => In (Vaccine_Type r) vaccine_types)
         (fst (generate_vaccination_data w)).
Proof.
  destruct (generate_structure w) as (blocks & E & HR & _).
  rewrite E. apply Forall_concat.
  refine (Forall2_Forall_r _ (Forall _) _ _ _ HR).
  intros c block (base_rate & w1 & _ & _ & Hrows).
  refine (Forall2_Forall_r _ _ _ _ _ Hrows).
  intros date row (_ & _ & w2 & _ & _ & _ & Hv). exact Hv.
Qed.

(** In exact arithmetic, the slice of the unit interval that selects
    each type has the length of the configured probability of the type. *)
Lemma vaccine_type_slices (w : World) :
  let u := fst (NpRandom.random_sample w) in
  let v := fst (NpRandom.choice vaccine_types vaccine_probabilities w) in
  (v = "Pfizer"%string <-> (u < 4 # 10)%Q)
  /\ (v = "Moderna"%string <-> (4 # 10 <= u < 7 # 10)%Q)
  /\ (v = "AstraZeneca"%string <-> (7 # 10 <= u < 85 # 100)%Q)
  /\ (v = "Sinovac"%string <-> (85 # 100 <= u < 95 # 100)%Q)
  /\ (v = "Johnson&Johnson"%string <-> (95 # 100 <= u)%Q).
Proof.
  unfold NpRandom.choice, bind, ret.
  pose proof (random_sample_range w) as Hu.
  destruct (NpRandom.random_sample w) as [u w']. cbn [fst] in *.
  unfold NpRandom.searchsorted_right, vaccine_probabilities, NpRandom.cumsum.
  cbn [NpRandom.cumsum_from filter].
  repeat match goal with
         | |- context [Qle_bool ?c u] =>
             let E := fresh "E" in
             destruct (Qle_bool c u) eqn:E;
             [ apply Qle_bool_iff in E
             | apply not_true_iff_false in E; rewrite Qle_bool_iff in E;
               apply Qnot_le_lt in E ]
         end;
    cbn [List.length nth vaccine_types];
    repeat split; intros;
    first [ reflexivity | discriminate | lra | exfalso; lra ].
Qed.

(** * The rest of the program *)

(** ** The counts of a generated row *)

Lemma for_each_extends_Forall {A B} (body : A -> list B -> State (list B))
    (P : B -> Prop) :
  (forall x data w,
      exists block, fst (body x data w) = data ++ block /\ Forall P block) ->
  forall xs data w,
    Forall P data -> Forall P (fst (for_each xs body data w)).
Proof.
  intros step. induction xs as [|x xs IH]; intros data w Hdata.
  - exact Hdata.
  - simpl. unfold bind.
    destruct (step x data w) as (block & Hb & HP).
    destruct (body x data w) as [data1 w1]. simpl in Hb. subst data1.
    apply IH. apply Forall_app. split; assumption.
Qed.

Lemma generate_Forall (P : Row -> Prop) :
  (forall country base_rate start date data w,
      exists row,
        fst (append_row country base_rate start date data w) = data ++ [row]
        /\ P row) ->
  forall w, Forall P (fst (generate_vaccination_data w)).
Proof.
  intros Hrow w.
  assert (E : generate_vaccination_data w
              = for_each countries
                  (append_country (clock w - Datetime.timedelta 365)
                     (Datetime.date_range (clock w - Datetime.timedelta 365)
                        (clock w))) [] w).
  { unfold generate_vaccination_data, bind, ret, now. cbv beta iota.
    match goal with
    | |- context [for_each countries ?f [] w] =>
        destruct (for_each countries f [] w)
    end.
    reflexivity. }
  rewrite E. apply for_each_extends_Forall; [ | constructor ].
  intros c data w1. unfold append_country, bind.
  destruct (pick_base_rate c w1) as [b w2].
  assert (G : forall dates d0 w0,
             exists block,
               fst (for_each dates
                      (append_row c b (clock w - Datetime.timedelta 365))
                      d0 w0) = d0 ++ block
               /\ Forall P block).
  { induction dates as [|d dates IH]; intros d0 w0.
    - exists []. simpl. rewrite app_nil_r. auto.
    - simpl. unfold bind.
      destruct (Hrow c b (clock w - Datetime.timedelta 365) d d0 w0)
        as (row & Hr & HP).
      destruct (append_row c b _ d d0 w0) as [d1 w1']. simpl in Hr. subst d1.
      cbv beta iota.
      destruct (IH (d0 ++ [row]) w1') as (block & Hb & HPb).
      exists (row :: block). rewrite <- app_assoc in Hb.
      split; [ exact Hb | constructor; assumption ]. }
  apply G.
Qed.

Lemma uniform_range (low high : Q) (w : World) :
  (low <= high)%Q ->
  (low <= fst (NpRandom.uniform low high w) <= high)%Q.
Proof.
  intros Hlh. unfold NpRandom.uniform, bind, ret.
  pose proof (random_sample_range w) as Hu.
  destruct (NpRandom.random_sample w) as [u w']. simpl in *.
  split; nra.
Qed.

Lemma py_int_range (lo hi : Z) (x : Q) :
  0 <= lo ->
  (inject_Z lo <= x <= inject_Z hi)%Q -> lo <= Py.int x <= hi.
Proof.
  intros Hlo (H1 & H2). unfold Py.int.
  destruct x as [n d]. unfold Qle in H1, H2. simpl in *.
  rewrite Z.mul_1_r in *.
  assert (Hn : 0 <= n) by nia.
  rewrite Z.quot_div_nonneg by lia.
  split.
  - apply Z.div_le_lower_bound; lia.
  - apply Z.div_le_upper_bound; lia.
Qed.

(** Every row of the generated table has 100000 <= Doses_Administered
    <= 10000000 and 5000 <= Daily_Vaccinations <= 500000. *)
Theorem generated_counts_in_range (w : World) :
  Forall counts_in_range (fst (generate_vaccination_data w)).
Proof.
  apply generate_Forall. intros c b s d data w0.
  unfold append_row, bind, ret.
  destruct (NpRandom.normal 0 2 w0) as [noise w1].
  destruct (NpRandom.randint 5 15 w1) as [r w2].
  pose proof (uniform_range 100000 10000000 w2 ltac:(lra)) as Hd.
  destruct (NpRandom.uniform 100000 10000000 w2) as [doses w3].
  pose proof (uniform_range 5000 500000 w3 ltac:(lra)) as Hv.
  destruct (NpRandom.uniform 5000 500000 w3) as [daily w4].
  destruct (NpRandom.choice vaccine_types vaccine_probabilities w4)
    as [vaccine w5].
  cbn [fst] in *. eexists. split; [ reflexivity | ].
  unfold counts_in_range. cbn [Doses_Administered Daily_Vaccinations].
  split; apply py_int_range; try lia; assumption.
Qed.

(** ** What the sidebar can select *)

(** A selection made with the multiselect never holds the sentinel, and a
    non-empty one shows only rows of the ten countries offered: no row of
    South Africa or Mexico, which the generator produces, passes. *)
Theorem selectable_countries (selection : list string) :
  selectable selection ->
  ~ In all_countries selection
  /\ (selection <> [] ->
      forall start_date end_date df r,
        In r (filter_data selection start_date end_date df) ->
        In (Country r) multiselect_options
        /\ Country r <> "South Africa"%string
        /\ Country r <> "Mexico"%string).
Proof.
  intros (_ & Hincl).
  assert (Hopt : forall c, In c multiselect_options ->
                   c <> all_countries /\ c <> "South Africa"%string
                   /\ c <> "Mexico"%string).
  { intros c Hc. simpl in Hc.
    repeat (destruct Hc as [<- | Hc];
            [ repeat split; discriminate | ]).
    destruct Hc. }
  assert (Hnot : ~ In all_countries selection).
  { intros H. apply Hincl in H. apply Hopt in H. tauto. }
  split; [ exact Hnot | ].
  intros Hne a b df r Hr.
  assert (Hc : In (Country r) selection).
  { unfold filter_data in Hr.
    destruct (isin all_countries selection) eqn:E.
    - apply isin_In in E. contradiction.
    - destruct selection as [|c cs]; [ contradiction | ].
      cbn [negb andb truthy] in Hr. apply filter_In in Hr.
      destruct Hr as (Hr & _). apply filter_In in Hr.
      destruct Hr as (_ & Hr). apply isin_In. exact Hr. }
  apply Hincl in Hc. split; [ exact Hc | ]. apply Hopt in Hc. tauto.
Qed.

Lemma selectable_countries_witness :
  selectable default_countries
  /\ ~ In all_countries default_countries.
Proof.
  assert (Hsel : selectable default_countries).
  { split.
    - repeat (constructor; [ simpl; intuition discriminate | ]).
      constructor.
    - intros c Hc. simpl in Hc. simpl. intuition. }
  split; [ exact Hsel | ].
  apply (selectable_countries default_countries Hsel).
Defined.

(** ** The filtered table keeps the shape of a grid *)

Lemma filter_map_comm {A B} (f : A -> B) (p : B -> bool) (l : list A) :
  filter p (map f l) = map f (filter (fun x => p (f x)) l).
Proof.
  induction l as [|x l IH]; simpl; [ reflexivity | ].
  destruct (p (f x)); simpl; rewrite IH; reflexivity.
Qed.

Lemma filter_list_prod {A B} (pa : A -> bool) (pb : B -> bool)
    (xs : list A) (ys : list B) :
  filter (fun xy => pa (fst xy) && pb (snd xy)) (list_prod xs ys)
  = list_prod (filter pa xs) (filter pb ys).
Proof.
  induction xs as [|x xs IH]; simpl; [ reflexivity | ].
  rewrite filter_app, IH, filter_map_comm. cbn [fst snd].
  destruct (pa x); simpl.
  - reflexivity.
  - assert (E : filter (fun _ : B => false) ys = [])
      by (clear; induction ys; simpl; auto).
    rewrite E. reflexivity.
Qed.

Lemma filter_none {A} (f : A -> bool) (l : list A) :
  (forall x, In x l -> f x = false) -> filter f l = [].
Proof.
  induction l as [|x l IH]; simpl; intros H; [ reflexivity | ].
  rewrite (H x) by auto. apply IH. auto.
Qed.

Lemma filter_all {A} (f : A -> bool) (l : list A) :
  (forall x, In x l -> f x = true) -> filter f l = l.
Proof.
  induction l as [|x l IH]; simpl; intros H; [ reflexivity | ].
  rewrite (H x) by auto. rewrite IH; auto.
Qed.

Lemma length_filter_seq (f : nat -> bool) (lo len n : nat) :
  (lo + len <= n)%nat ->
  (forall k, (k < n)%nat -> f k = true <-> (lo <= k < lo + len)%nat) ->
  List.length (filter f (seq 0 n)) = len.
Proof.
  intros Hn Hf.
  replace n with (lo + (len + (n - lo - len)))%nat by lia.
  rewrite !seq_app, !filter_app. cbn [Nat.add].
  rewrite (filter_none f (seq 0 lo)), (filter_all f (seq lo len)),
    (filter_none f (seq (lo + len) (n - lo - len))).
  - simpl. rewrite app_nil_r. apply length_seq.
  - intros k Hk. apply in_seq in Hk.
    destruct (f k) eqn:E; [ | reflexivity ]. apply Hf in E; lia.
  - intros k Hk. apply in_seq in Hk. apply Hf; lia.
  - intros k Hk. apply in_seq in Hk.
    destruct (f k) eqn:E; [ | reflexivity ]. apply Hf in E; lia.
Qed.

Lemma date_of_window_start (t : Datetime.datetime) :
  Datetime.date_of (t - Datetime.timedelta 365) = Datetime.date_of t - 365.
Proof.
  replace (t - Datetime.timedelta 365) with (t + Datetime.timedelta (-365))
    by (unfold Datetime.timedelta; lia).
  rewrite date_of_shift. lia.
Qed.

Lemma count_in_range (t : Datetime.datetime) (a b : Datetime.date) :
  Datetime.date_of t - 365 <= a -> a <= b -> b <= Datetime.date_of t ->
  List.length (filter (in_range a b)
                 (Datetime.date_range (t - Datetime.timedelta 365) t))
  = Z.to_nat (b - a + 1).
Proof.
  intros Ha Hab Hb. rewrite date_range_window, filter_map_comm, length_map.
  apply (length_filter_seq _ (Z.to_nat (a - (Datetime.date_of t - 365))));
    [ lia | ].
  intros k Hk. unfold in_range.
  rewrite date_of_shift, date_of_window_start, andb_true_iff, !Z.leb_le.
  lia.
Qed.

Lemma selected_countries_length (selection : list string) :
  NoDup selection -> incl selection countries ->
  List.length (filter (fun c => isin c selection) countries)
  = List.length selection.
Proof.
  intros Hnd Hincl. apply Permutation_length. apply NoDup_Permutation.
  - apply NoDup_filter. apply countries_NoDup.
  - exact Hnd.
  - intros c. rewrite filter_In, isin_In. split; [ tauto | ].
    intros H. split; [ apply Hincl; exact H | exact H ].
Qed.

Lemma filtered_keys (w : World) (selection : list string)
    (start_date end_date : Datetime.date) :
  selection <> [] -> ~ In all_countries selection ->
  map key (filter_data selection start_date end_date
                       (fst (generate_vaccination_data w)))
  = list_prod (filter (fun c => isin c selection) countries)
      (filter (in_range start_date end_date)
         (Datetime.date_range (clock w - Datetime.timedelta 365) (clock w))).
Proof.
  intros Hne Hnot. unfold filter_data.
  assert (E : isin all_countries selection = false).
  { destruct (isin all_countries selection) eqn:E; [ | reflexivity ].
    apply isin_In in E. contradiction. }
  rewrite E. destruct selection as [|c cs]; [ contradiction | ].
  cbn [negb andb truthy]. rewrite filter_filter.
  rewrite <- filter_list_prod, <- generated_keys.
  rewrite filter_map_comm. reflexivity.
Qed.

Lemma filtered_length (w : World) (selection : list string)
    (start_date end_date : Datetime.date) :
  selection <> [] -> ~ In all_countries selection ->
  NoDup selection -> incl selection countries ->
  Datetime.date_of (clock w) - 365 <= start_date ->
  start_date <= end_date -> end_date <= Datetime.date_of (clock w) ->
  List.length (filter_data selection start_date end_date
                           (fst (generate_vaccination_data w)))
  = (List.length selection * Z.to_nat (end_date - start_date + 1))%nat.
Proof.
  intros Hne Hnot Hnd Hincl Ha Hab Hb.
  rewrite <- (length_map key), filtered_keys, length_prod by assumption.
  rewrite selected_countries_length, count_in_range by assumption.
  reflexivity.
Qed.

(** The table filtered from the generated one, with a proper selection
    (non-empty, without the sentinel), is again a grid: one row for each
    selected generated country and each date of the window whose day is
    in the range, in the order of the generator. When the selected
    countries are distinct generated ones and the range lies in the
    window, it has (number selected) * (end_date - start_date + 1)
    rows. *)
Theorem filtered_table_grid (w : World) (selection : list string)
    (start_date end_date : Datetime.date) :
  selection <> [] -> ~ In all_countries selection ->
  let df_filtered :=
    filter_data selection start_date end_date
                (fst (generate_vaccination_data w)) in
  let dates :=
    Datetime.date_range (clock w - Datetime.timedelta 365) (clock w) in
  map key df_filtered
  = list_prod (filter (fun c => isin c selection) countries)
              (filter (in_range start_date end_date) dates)
  /\ (NoDup selection -> incl selection countries ->
      Datetime.date_of (clock w) - 365 <= start_date ->
      start_date <= end_date -> end_date <= Datetime.date_of (clock w) ->
      List.length df_filtered
      = (List.length selection * Z.to_nat (end_date - start_date + 1))%nat).
Proof.
  intros Hne Hnot df_filtered dates. split.
  - apply filtered_keys; assumption.
  - intros. apply filtered_length; assumption.
Qed.

(** The sidebar as it stands: four countries and 181 days. *)
Lemma filtered_table_grid_witness :
  default_countries <> [] /\ ~ In all_countries default_countries
  /\ List.length
       (filter_data default_countries
          (Datetime.date_of (a_clock - Datetime.timedelta 180))
          (Datetime.date_of a_clock)
          (fst (generate_vaccination_data zero_tape))) = 724%nat.
Proof.
  assert (Hne : default_countries <> []) by discriminate.
  assert (Hnot : ~ In all_countries default_countries)
    by (simpl; intuition discriminate).
  split; [ exact Hne | ]. split; [ exact Hnot | ].
  destruct (filtered_table_grid zero_tape default_countries
              (Datetime.date_of (a_clock - Datetime.timedelta 180))
              (Datetime.date_of a_clock) Hne Hnot) as (_ & Hlen).
  rewrite Hlen.
  - reflexivity.
  - repeat (constructor; [ simpl; intuition discriminate | ]). constructor.
  - intros c Hc. simpl in Hc. simpl. intuition.
  - vm_compute. discriminate.
  - vm_compute. discriminate.
  - vm_compute. discriminate.
Defined.

(** ** Sums and means of columns *)

Lemma isum_from (xs : list Z) (a : Z) : fold_left Z.add xs a = a + isum xs.
Proof.
  unfold isum. revert a. induction xs as [|x xs IH]; intros a; simpl.
  - lia.
  - rewrite IH, (IH x). lia.
Qed.

Lemma isum_cons (x : Z) (xs : list Z) : isum (x :: xs) = x + isum xs.
Proof. unfold isum at 1. simpl. apply isum_from. Qed.

Lemma isum_app (xs ys : list Z) : isum (xs ++ ys) = isum xs + isum ys.
Proof.
  induction xs as [|x xs IH]; simpl; [ reflexivity | ].
  rewrite !isum_cons, IH. lia.
Qed.

Lemma fsum_from (xs : list Q) (a : Q) :
  (fold_left Qplus xs a == a + fsum xs)%Q.
Proof.
  unfold fsum. revert a. induction xs as [|x xs IH]; intros a; simpl.
  - lra.
  - rewrite IH, (IH (0 + x)%Q). lra.
Qed.

Lemma fsum_cons (x : Q) (xs : list Q) : (fsum (x :: xs) == x + fsum xs)%Q.
Proof. unfold fsum at 1. simpl. rewrite fsum_from. lra. Qed.

Lemma inject_length_cons {A} (x : A) (l : list A) :
  (inject_Z (Z.of_nat (List.length (x :: l)))
   == inject_Z (Z.of_nat (List.length l)) + 1)%Q.
Proof.
  cbn [List.length]. rewrite Nat2Z.inj_succ. unfold Z.succ.
  rewrite inject_Z_plus. reflexivity.
Qed.

Lemma inject_length_nonneg {A} (l : list A) :
  (0 <= inject_Z (Z.of_nat (List.length l)))%Q.
Proof. change 0%Q with (inject_Z 0). rewrite <- Zle_Qle. lia. Qed.

(** The sums of two columns read off the same rows, one below the other. *)
Lemma fsum_le {A} (f g : A -> Q) (l : list A) :
  (forall x, In x l -> (f x <= g x)%Q) ->
  (fsum (map f l) <= fsum (map g l))%Q.
Proof.
  induction l as [|x l IH]; intros H; simpl.
  - unfold fsum. simpl. lra.
  - rewrite !fsum_cons.
    assert (f x <= g x)%Q by (apply H; left; reflexivity).
    assert (fsum (map f l) <= fsum (map g l))%Q
      by (apply IH; intros; apply H; right; assumption).
    lra.
Qed.

Lemma fsum_bounds (lo hi : Q) (xs : list Q) :
  Forall (fun x => lo <= x <= hi)%Q xs ->
  (lo * inject_Z (Z.of_nat (List.length xs)) <= fsum xs
   <= hi * inject_Z (Z.of_nat (List.length xs)))%Q.
Proof.
  induction 1 as [|x xs Hx _ IH].
  - unfold fsum. cbn [fold_left List.length Z.of_nat].
    change (inject_Z 0) with 0%Q. lra.
  - rewrite fsum_cons, inject_length_cons.
    set (n := inject_Z (Z.of_nat (List.length xs))) in *.
    set (s := fsum xs) in *. split; nra.
Qed.

Lemma mean_some (xs : list Q) :
  xs <> [] ->
  mean xs = Some (fsum xs / inject_Z (Z.of_nat (List.length xs)))%Q
  /\ (0 < inject_Z (Z.of_nat (List.length xs)))%Q.
Proof.
  destruct xs as [|x xs]; [ contradiction | ]. intros _. split.
  - reflexivity.
  - change 0%Q with (inject_Z 0). rewrite <- Zlt_Qlt. simpl. lia.
Qed.

Lemma mean_bounds (lo hi : Q) (xs : list Q) :
  xs <> [] -> Forall (fun x => lo <= x <= hi)%Q xs ->
  exists m, mean xs = Some m /\ (lo <= m <= hi)%Q.
Proof.
  intros Hne Hall. destruct (mean_some xs Hne) as (E & Hn).
  destruct (fsum_bounds lo hi xs Hall) as (H1 & H2).
  eexists. split; [ exact E | ]. split.
  - apply Qle_shift_div_l; assumption.
  - apply Qle_shift_div_r; assumption.
Qed.

Lemma mean_le {A} (f g : A -> Q) (l : list A) :
  l <> [] ->
  (forall x, In x l -> (f x <= g x)%Q) ->
  exists m1 m2,
    mean (map f l) = Some m1 /\ mean (map g l) = Some m2 /\ (m1 <= m2)%Q.
Proof.
  intros Hne Hfg.
  assert (Hf : map f l <> []) by (destruct l; [ contradiction | discriminate ]).
  assert (Hg : map g l <> []) by (destruct l; [ contradiction | discriminate ]).
  destruct (mean_some _ Hf) as (Ef & Hn). destruct (mean_some _ Hg) as (Eg & _).
  do 2 eexists. split; [ exact Ef | ]. split; [ exact Eg | ].
  rewrite !length_map in *.
  apply Qle_shift_div_l; [ exact Hn | ].
  unfold Qdiv. rewrite <- Qmult_assoc, (Qmult_comm (/ _)), Qmult_inv_r, Qmult_1_r.
  - apply fsum_le. exact Hfg.
  - intros E. rewrite E in Hn. lra.
Qed.

(** ** The keys of groupby('Date') *)

Lemma insert_date_In (d x : Z) (keys : list Z) :
  In x (insert_date d keys) <-> x = d \/ In x keys.
Proof.
  induction keys as [|d' keys IH]; simpl.
  - intuition.
  - destruct (Z.compare_spec d d'); simpl.
    + subst. intuition.
    + intuition.
    + rewrite IH. intuition.
Qed.

Lemma insert_date_sorted (d : Z) (keys : list Z) :
  StronglySorted Z.lt keys -> StronglySorted Z.lt (insert_date d keys).
Proof.
  induction 1 as [|d' keys Hs IH Hall]; simpl.
  - constructor; constructor.
  - destruct (Z.compare_spec d d') as [E | Hlt | Hgt].
    + constructor; assumption.
    + constructor; [ constructor; assumption | ].
      constructor; [ exact Hlt | ].
      refine (Forall_impl _ _ Hall). intros x Hx. lia.
    + constructor; [ exact IH | ].
      apply Forall_forall. intros x Hx. apply insert_date_In in Hx.
      destruct Hx as [-> | Hx]; [ exact Hgt | ].
      rewrite Forall_forall in Hall. auto.
Qed.

Lemma date_keys_spec (df : DataFrame) :
  StronglySorted Z.lt (date_keys df)
  /\ forall d, In d (date_keys df) <-> In d (map Date df).
Proof.
  unfold date_keys.
  assert (G : forall rows keys,
             StronglySorted Z.lt keys ->
             StronglySorted Z.lt
               (fold_left (fun ks r => insert_date (Date r) ks) rows keys)
             /\ forall d,
                 In d (fold_left (fun ks r => insert_date (Date r) ks)
                                 rows keys)
                 <-> In d (map Date rows) \/ In d keys).
  { induction rows as [|r rows IH]; intros keys Hs; simpl.
    - split; [ exact Hs | intuition ].
    - destruct (IH _ (insert_date_sorted (Date r) keys Hs)) as (Hs' & Hin).
      split; [ exact Hs' | ].
      intros d. rewrite Hin, insert_date_In. intuition. }
  destruct (G df [] (SSorted_nil _)) as (Hs & Hin).
  split; [ exact Hs | ]. intros d. rewrite Hin. simpl. tauto.
Qed.

Lemma date_sorted_NoDup (keys : list Z) :
  StronglySorted Z.lt keys -> NoDup keys.
Proof.
  induction 1 as [|k keys Hs IH Hall]; constructor; [ | exact IH ].
  intros Hin. rewrite Forall_forall in Hall. specialize (Hall k Hin). lia.
Qed.

Lemma group_by_date_nonempty (d : Z) (df : DataFrame) :
  In d (date_keys df) -> group_by_date d df <> [].
Proof.
  intros Hd. apply (proj2 (date_keys_spec df)) in Hd.
  apply in_map_iff in Hd. destruct Hd as (r & Hr & Hin).
  assert (Hg : In r (group_by_date d df)).
  { unfold group_by_date. apply filter_In. split; [ exact Hin | ].
    apply Z.eqb_eq. exact Hr. }
  intros E. rewrite E in Hg. destruct Hg.
Qed.

(** ** The trend chart of the Overview page *)

(** On a table whose rows are in bounds, as the generated rows are, the
    trend chart has one point per distinct timestamp, the dates
    increasing; both means of a date are numbers (never nan), the mean of
    the fully vaccinated percentage is in [0,95], never above the mean of
    the partially vaccinated percentage, which is at most 100: the two
    lines do not cross. *)
Theorem daily_avg_in_bounds (df_filtered : DataFrame) :
  Forall row_in_bounds df_filtered ->
  Forall (fun a =>
            exists f p,
              avg_Fully a = Some f /\ avg_Partially a = Some p
              /\ (0 <= f <= 95 /\ f <= p /\ p <= 100)%Q)
         (daily_avg df_filtered)
  /\ StronglySorted Z.lt (map avg_Date (daily_avg df_filtered))
  /\ (forall d, In d (map avg_Date (daily_avg df_filtered))
                <-> In d (map Date df_filtered)).
Proof.
  intros Hb.
  assert (Hdates : map avg_Date (daily_avg df_filtered)
                   = date_keys df_filtered).
  { unfold daily_avg. rewrite map_map. cbn [avg_Date]. apply map_id. }
  destruct (date_keys_spec df_filtered) as (Hs & Hin).
  split; [ | rewrite Hdates; split; assumption ].
  unfold daily_avg. apply Forall_map. apply Forall_forall. intros d Hd.
  cbn [avg_Fully avg_Partially].
  pose proof (group_by_date_nonempty d df_filtered Hd) as Hne.
  assert (Hrows : forall r, In r (group_by_date d df_filtered) ->
                            row_in_bounds r).
  { intros r Hr. unfold group_by_date in Hr. apply filter_In in Hr.
    rewrite Forall_forall in Hb. apply Hb. tauto. }
  destruct (mean_le Fully_Vaccinated_Percentage
              Partially_Vaccinated_Percentage _ Hne) as (f & p & Ef & Ep & Hfp).
  { intros r Hr. apply Hrows in Hr. unfold row_in_bounds in Hr. tauto. }
  destruct (mean_bounds 0 95
              (map Fully_Vaccinated_Percentage (group_by_date d df_filtered)))
    as (f' & Ef' & Hf').
  { destruct (group_by_date d df_filtered); [ contradiction | discriminate ]. }
  { apply Forall_map. apply Forall_forall. intros r Hr. apply Hrows in Hr.
    unfold row_in_bounds in Hr. tauto. }
  destruct (mean_bounds 0 100
              (map Partially_Vaccinated_Percentage
                   (group_by_date d df_filtered)))
    as (p' & Ep' & Hp').
  { destruct (group_by_date d df_filtered); [ contradiction | discriminate ]. }
  { apply Forall_map. apply Forall_forall. intros r Hr. apply Hrows in Hr.
    unfold row_in_bounds in Hr. split; lra. }
  rewrite Ef in Ef'. rewrite Ep in Ep'. inversion Ef'. inversion Ep'. subst.
  exists f', p'. repeat split; try assumption; tauto.
Qed.

Lemma daily_avg_in_bounds_witness :
  Forall row_in_bounds sample_table
  /\ Forall (fun a =>
               exists f p,
                 avg_Fully a = Some f /\ avg_Partially a = Some p
                 /\ (0 <= f <= 95 /\ f <= p /\ p <= 100)%Q)
            (daily_avg sample_table)
  /\ StronglySorted Z.lt (map avg_Date (daily_avg sample_table)).
Proof.
  assert (Hb : Forall row_in_bounds sample_table).
  { repeat constructor; unfold Qle; simpl; lia. }
  split; [ exact Hb | ].
  destruct (daily_avg_in_bounds sample_table Hb) as (H1 & H2 & _).
  split; assumption.
Defined.

(** ** Sums over the groups of a groupby *)

Lemma isum_zero {A} (l : list A) : isum (map (fun _ => 0) l) = 0.
Proof. induction l; simpl; [ reflexivity | rewrite isum_cons; lia ]. Qed.

Lemma isum_ones {A} (l : list A) :
  isum (map (fun _ => 1) l) = Z.of_nat (List.length l).
Proof.
  induction l as [|x l IH]; [ reflexivity | ].
  cbn [map List.length]. rewrite isum_cons, IH. lia.
Qed.

Lemma isum_map_add {A} (f g : A -> Z) (l : list A) :
  isum (map (fun x => f x + g x) l) = isum (map f l) + isum (map g l).
Proof.
  induction l as [|x l IH]; simpl; [ reflexivity | ].
  rewrite !isum_cons, IH. lia.
Qed.

Lemma isum_perm (l l' : list Z) : Permutation l l' -> isum l = isum l'.
Proof.
  induction 1; rewrite ?isum_cons; lia.
Qed.

(** The sum over the keys of what one element adds to its own group. *)
Lemma isum_indicator {K} (hit : K -> bool) (k0 : K) (v : Z) (ks : list K) :
  (forall k, hit k = true <-> k = k0) -> NoDup ks -> In k0 ks ->
  isum (map (fun k => if hit k then v else 0) ks) = v.
Proof.
  intros Hhit Hnd. induction Hnd as [|k ks Hnotin Hnd IH]; intros Hin.
  - destruct Hin.
  - cbn [map]. rewrite isum_cons. destruct Hin as [-> | Hin].
    + rewrite (proj2 (Hhit k0) eq_refl).
      assert (E : map (fun k => if hit k then v else 0) ks
                  = map (fun _ => 0) ks).
      { apply map_ext_in. intros k Hk. destruct (hit k) eqn:Eh; auto.
        apply Hhit in Eh. subst. contradiction. }
      rewrite E, isum_zero. lia.
    + destruct (hit k) eqn:Eh.
      * apply Hhit in Eh. subst. contradiction.
      * rewrite IH by exact Hin. lia.
Qed.

(** Summing a column group by group, over distinct keys that cover the
    table, gives the sum of the column. *)
Lemma isum_by_groups {A K} (sel : K -> A -> bool) (key : A -> K)
    (g : A -> Z) (ks : list K) (l : list A) :
  (forall k x, sel k x = true <-> k = key x) ->
  NoDup ks -> (forall x, In x l -> In (key x) ks) ->
  isum (map (fun k => isum (map g (filter (sel k) l))) ks) = isum (map g l).
Proof.
  intros Hsel Hnd. induction l as [|x l IH]; intros Hcover.
  - simpl. apply isum_zero.
  - cbn [map]. rewrite isum_cons.
    pose proof (isum_indicator (fun k => sel k x) (key x) (g x) ks
                  (fun k => Hsel k x) Hnd
                  (Hcover x (or_introl eq_refl))) as Hind.
    transitivity
      (isum (map (fun k => (if sel k x then g x else 0)
                           + isum (map g (filter (sel k) l))) ks)).
    + f_equal. apply map_ext. intros k. cbn [filter].
      destruct (sel k x); [ | lia ].
      cbn [map]. rewrite isum_cons. reflexivity.
    + rewrite isum_map_add, Hind, IH; [ reflexivity | ].
      intros y Hy. apply Hcover. right. exact Hy.
Qed.

(** ** Distinct values *)

Lemma unique_spec (xs : list string) :
  NoDup (unique xs) /\ forall x, In x (unique xs) <-> In x xs.
Proof.
  unfold unique.
  assert (G : forall l seen,
             NoDup seen ->
             NoDup (fold_left (fun seen x =>
                                 if isin x seen then seen else seen ++ [x])
                              l seen)
             /\ forall x,
                 In x (fold_left (fun seen x =>
                                    if isin x seen then seen else seen ++ [x])
                                 l seen)
                 <-> In x l \/ In x seen).
  { induction l as [|y l IH]; intros seen Hnd; simpl.
    - split; [ exact Hnd | intuition ].
    - destruct (isin y seen) eqn:E.
      + apply isin_In in E. destruct (IH seen Hnd) as (H1 & H2).
        split; [ exact H1 | ]. intros x. rewrite H2.
        intuition (subst; auto).
      + assert (Hnot : ~ In y seen)
          by (intros H; apply isin_In in H; congruence).
        assert (Hnd' : NoDup (seen ++ [y])).
        { apply NoDup_app; [ exact Hnd | repeat constructor; intros [] | ].
          intros a Ha [<- | []]. contradiction. }
        destruct (IH _ Hnd') as (H1 & H2).
        split; [ exact H1 | ]. intros x. rewrite H2, in_app_iff. simpl.
        intuition. }
  destruct (G xs [] (NoDup_nil _)) as (H1 & H2).
  split; [ exact H1 | ]. intros x. rewrite H2. simpl. tauto.
Qed.

(** ** The daily totals and the vaccine distribution of the Overview *)

(** The area chart of the daily totals has one point per distinct
    timestamp, the dates increasing, and its values add up to the sum of
    the Daily_Vaccinations column of the filtered table: no row is
    dropped or counted twice. *)
Theorem daily_totals_conserve (df_filtered : DataFrame) :
  isum (map snd (daily_totals df_filtered))
  = isum (map Daily_Vaccinations df_filtered)
  /\ StronglySorted Z.lt (map fst (daily_totals df_filtered))
  /\ (forall d, In d (map fst (daily_totals df_filtered))
                <-> In d (map Date df_filtered)).
Proof.
  destruct (date_keys_spec df_filtered) as (Hs & Hin).
  assert (Hdates : map fst (daily_totals df_filtered) = date_keys df_filtered).
  { unfold daily_totals. rewrite map_map. cbn [fst]. apply map_id. }
  split; [ | rewrite Hdates; split; assumption ].
  unfold daily_totals. rewrite map_map. cbn [snd].
  apply (isum_by_groups (fun d r => Date r =? d) Date).
  - intros d r. rewrite Z.eqb_eq. split; congruence.
  - apply date_sorted_NoDup. exact Hs.
  - intros r Hr. apply Hin. apply in_map. exact Hr.
Qed.

Lemma insert_count_perm (kv : string * nat) (l : list (string * nat)) :
  Permutation (kv :: l) (insert_count kv l).
Proof.
  induction l as [|kv' l IH]; simpl.
  - apply Permutation_refl.
  - destruct (snd kv' <? snd kv)%nat.
    + apply Permutation_refl.
    + apply perm_trans with (kv' :: kv :: l);
        [ apply perm_swap | apply perm_skip; exact IH ].
Qed.

Lemma insert_count_sorted (kv : string * nat) (l : list (string * nat)) :
  StronglySorted (fun a b => (snd b <= snd a)%nat) l ->
  StronglySorted (fun a b => (snd b <= snd a)%nat) (insert_count kv l).
Proof.
  induction 1 as [|kv' l Hs IH Hall]; simpl.
  - constructor; constructor.
  - destruct (Nat.ltb_spec (snd kv') (snd kv)) as [Hlt | Hge].
    + constructor; [ constructor; assumption | ].
      constructor; [ lia | ].
      refine (Forall_impl _ _ Hall). intros x Hx. lia.
    + constructor; [ exact IH | ].
      apply (Permutation_Forall (insert_count_perm kv l)).
      constructor; [ exact Hge | exact Hall ].
Qed.

Lemma value_counts_spec (xs : list string) :
  Permutation (map (fun k => (k, occurrences k xs)) (unique xs))
              (value_counts xs)
  /\ StronglySorted (fun a b => (snd b <= snd a)%nat) (value_counts xs).
Proof.
  unfold value_counts.
  assert (G : forall ks acc,
             StronglySorted (fun a b => (snd b <= snd a)%nat) acc ->
             Permutation (map (fun k => (k, occurrences k xs)) ks ++ acc)
               (fold_left (fun acc k => insert_count (k, occurrences k xs) acc)
                          ks acc)
             /\ StronglySorted (fun a b => (snd b <= snd a)%nat)
                  (fold_left (fun acc k =>
                                insert_count (k, occurrences k xs) acc)
                             ks acc)).
  { induction ks as [|k ks IH]; intros acc Hacc; simpl.
    - split; [ apply Permutation_refl | exact Hacc ].
    - destruct (IH _ (insert_count_sorted (k, occurrences k xs) acc Hacc))
        as (Hp & Hs).
      split; [ | exact Hs ].
      eapply perm_trans; [ | exact Hp ].
      apply perm_trans
        with (map (fun k => (k, occurrences k xs)) ks
              ++ (k, occurrences k xs) :: acc).
      + apply Permutation_middle.
      + apply Permutation_app_head. apply insert_count_perm. }
  destruct (G (unique xs) [] (SSorted_nil _)) as (Hp & Hs).
  rewrite app_nil_r in Hp. split; assumption.
Qed.

(** The pie chart of the vaccine types has one slice per type present in
    the filtered table, each with the number of rows of the type, at
    least one; the larger slices come first and the counts add up to the
    number of rows. *)
Theorem vaccine_dist_counts (df_filtered : DataFrame) :
  let dist := vaccine_dist df_filtered in
  isum (map (fun kv => Z.of_nat (snd kv)) dist)
  = Z.of_nat (List.length df_filtered)
  /\ NoDup (map fst dist)
  /\ (forall v n,
        In (v, n) dist
        <-> In v (map Vaccine_Type df_filtered)
            /\ n = occurrences v (map Vaccine_Type df_filtered))
  /\ (forall v n, In (v, n) dist -> (1 <= n)%nat)
  /\ StronglySorted (fun a b => (snd b <= snd a)%nat) dist.
Proof.
  intros dist. subst dist. unfold vaccine_dist.
  set (xs := map Vaccine_Type df_filtered).
  destruct (value_counts_spec xs) as (Hp & Hs).
  destruct (unique_spec xs) as (Hnd & Hin).
  assert (Hmem : forall v n,
             In (v, n) (value_counts xs)
             <-> In v xs /\ n = occurrences v xs).
  { intros v n. split.
    - intros H. apply (Permutation_in _ (Permutation_sym Hp)) in H.
      apply in_map_iff in H. destruct H as (k & E & Hk).
      inversion E; subst. split; [ apply Hin; exact Hk | reflexivity ].
    - intros (Hv & ->). apply (Permutation_in _ Hp).
      apply in_map_iff. exists v. split; [ reflexivity | ].
      apply Hin. exact Hv. }
  split; [ | split; [ | split; [ exact Hmem | split; [ | exact Hs ] ] ] ].
  - rewrite <- (isum_perm _ _ (Permutation_map _ Hp)), map_map. cbn [snd].
    replace (Z.of_nat (List.length df_filtered))
      with (isum (map (fun _ => 1) xs))
      by (rewrite isum_ones; unfold xs; rewrite length_map; reflexivity).
    rewrite <- (isum_by_groups (fun k x => (k =? x)%string) (fun x => x)
                  (fun _ => 1) (unique xs) xs).
    + apply f_equal. apply map_ext. intros k. unfold occurrences.
      rewrite isum_ones. reflexivity.
    + intros k x. apply String.eqb_eq.
    + exact Hnd.
    + intros x Hx. apply Hin. exact Hx.
  - apply (Permutation_NoDup (Permutation_map fst Hp)).
    rewrite map_map. cbn [fst]. rewrite map_id. exact Hnd.
  - intros v n H. apply Hmem in H. destruct H as (Hv & ->).
    unfold occurrences.
    assert (Hf : In v (filter (String.eqb v) xs)).
    { apply filter_In. split; [ exact Hv | apply String.eqb_refl ]. }
    destruct (filter (String.eqb v) xs); [ destruct Hf | simpl; lia ].
Qed.

(** ** The number of countries of the Overview *)

(** The metric Countries Tracked is the number of bars of the country
    comparison: both count the distinct countries of the filtered
    table. *)
Theorem countries_count_is_number_of_bars (df_filtered : DataFrame) :
  countries_count (overview_metrics df_filtered)
  = List.length (latest_data df_filtered)
  /\ (forall c, In c (unique (map Country df_filtered))
                <-> In c (map Country (latest_data df_filtered))).
Proof.
  cbn [countries_count overview_metrics]. unfold nunique, latest_data.
  destruct (unique_spec (map Country df_filtered)) as (Hnd & Hin).
  destruct (sort_values_is_sorted df_filtered) as (Hperm & _).
  destruct (group_keys_spec (sort_values df_filtered)) as (Hks & Hkin).
  assert (Hsame : forall c,
             In c (unique (map Country df_filtered))
             <-> In c (group_keys (sort_values df_filtered))).
  { intros c. rewrite Hin, Hkin. split; apply Permutation_in;
      [ | apply Permutation_sym ]; apply Permutation_map; exact Hperm. }
  rewrite <- (length_map Country (groupby_last _)), groupby_last_countries.
  split.
  - apply Permutation_length. apply NoDup_Permutation;
      [ exact Hnd | apply key_sorted_NoDup; exact Hks | exact Hsame ].
  - exact Hsame.
Qed.

(** ** The axis of the forecast chart *)

(** On a table whose rows are in bounds, the range of the y axis of the
    forecast chart is [0, 100] when the filtered table is empty (the
    average is nan and both comparisons with nan fail); otherwise the
    average [a] is in [0, 95] and the range is
    [max(0, a - 10), min(100, a + 15)], a proper interval within
    [0, 100] that holds the average. *)
Theorem yaxis_range_of_average (df_filtered : DataFrame) :
  Forall row_in_bounds df_filtered ->
  let current_avg_vax :=
    mean (map Fully_Vaccinated_Percentage df_filtered) in
  (df_filtered = [] ->
   current_avg_vax = None
   /\ yaxis_range current_avg_vax = (Some 0%Q, Some 100%Q))
  /\ (df_filtered <> [] ->
      exists a lo hi,
        current_avg_vax = Some a
        /\ yaxis_range current_avg_vax = (Some lo, Some hi)
        /\ (0 <= a <= 95 /\ 0 <= lo /\ lo <= a /\ a < hi /\ hi <= 100)%Q).
Proof.
  intros Hb avg. split.
  - intros ->. split; reflexivity.
  - intros Hne.
    destruct (mean_bounds 0 95 (map Fully_Vaccinated_Percentage df_filtered))
      as (a & Ea & Ha).
    { destruct df_filtered; [ contradiction | discriminate ]. }
    { apply Forall_map. refine (Forall_impl _ _ Hb).
      intros r Hr. unfold row_in_bounds in Hr. tauto. }
    subst avg. rewrite Ea.
    unfold yaxis_range, PyFloat.max, PyFloat.min, PyFloat.sub, PyFloat.add,
      PyFloat.lt.
    exists a.
    destruct (py_lt_spec 0 (a - 10)); destruct (py_lt_spec (a + 15) 100);
      do 2 eexists; (split; [ reflexivity | ]);
      (split; [ reflexivity | ]); repeat split; lra.
Qed.

Lemma yaxis_range_of_average_witness :
  Forall row_in_bounds sample_table
  /\ exists a lo hi,
      mean (map Fully_Vaccinated_Percentage sample_table) = Some a
      /\ yaxis_range (mean (map Fully_Vaccinated_Percentage sample_table))
         = (Some lo, Some hi)
      /\ (0 <= a <= 95 /\ 0 <= lo /\ lo <= a /\ a < hi /\ hi <= 100)%Q.
Proof.
  assert (Hb : Forall row_in_bounds sample_table).
  { repeat constructor; unfold Qle; simpl; lia. }
  split; [ exact Hb | ].
  apply (yaxis_range_of_average sample_table Hb). discriminate.
Defined.

(** ** The rate of change of the Trends page *)

Lemma lookup_value_None (c : string) (ls : list (string * Q)) :
  lookup_value c ls = None <-> ~ In c (map fst ls).
Proof.
  induction ls as [|[c' v] ls IH]; simpl.
  - tauto.
  - destruct (String.eqb_spec c c') as [-> | Hne].
    + split; [ discriminate | intros H; exfalso; apply H; auto ].
    + rewrite IH. intuition congruence.
Qed.

Lemma lookup_value_bounds (lo hi : Q) (c : string) (ls : list (string * Q))
    (v : Q) :
  Forall (fun kv => lo <= snd kv <= hi)%Q ls ->
  lookup_value c ls = Some v -> (lo <= v <= hi)%Q.
Proof.
  induction 1 as [|[c' v'] ls Hv _ IH]; simpl; [ discriminate | ].
  destruct (c =? c')%string; [ | exact IH ].
  intros E. inversion E; subst. exact Hv.
Qed.

Lemma diff_from_per_country (c : string) (rows : DataFrame) :
  forall ls,
    changes_of c rows (diff_from ls rows)
    = series_diff_from (lookup_value c ls)
        (map Fully_Vaccinated_Percentage (group c rows)).
Proof.
  unfold changes_of, group.
  induction rows as [|r rows IH]; intros ls; [ reflexivity | ].
  cbn [diff_from combine filter fst].
  destruct (String.eqb_spec (Country r) c) as [E | Hne].
  - cbn [map snd series_diff_from]. rewrite IH. subst c.
    cbn [lookup_value]. rewrite String.eqb_refl. reflexivity.
  - rewrite IH. cbn [lookup_value].
    destruct (String.eqb_spec c (Country r)) as [E | _];
      [ congruence | reflexivity ].
Qed.

Lemma diff_from_count_nan (rows : DataFrame) :
  forall ls seen,
    (forall c, In c seen <-> In c (map fst ls)) ->
    (count_nan (diff_from ls rows) + List.length seen)%nat
    = List.length
        (fold_left (fun seen x => if isin x seen then seen else seen ++ [x])
                   (map Country rows) seen).
Proof.
  unfold count_nan.
  induction rows as [|r rows IH]; intros ls seen Hsame; [ reflexivity | ].
  cbn [diff_from map fold_left filter].
  destruct (isin (Country r) seen) eqn:E.
  - assert (Hin : In (Country r) (map fst ls))
      by (apply Hsame, isin_In; exact E).
    destruct (lookup_value (Country r) ls) as [p|] eqn:El;
      [ | apply lookup_value_None in El; contradiction ].
    cbn [PyFloat.sub]. apply IH. intros c. rewrite Hsame. simpl.
    split; [ auto | intros [<- | H]; assumption ].
  - assert (Hnot : ~ In (Country r) (map fst ls)).
    { intros H. apply Hsame, isin_In in H. congruence. }
    apply lookup_value_None in Hnot. rewrite Hnot. cbn [PyFloat.sub].
    cbn [List.length].
    rewrite <- (IH ((Country r, Fully_Vaccinated_Percentage r) :: ls)
                  (seen ++ [Country r])).
    + rewrite length_app. simpl. lia.
    + intros c. rewrite in_app_iff. cbn [map fst]. simpl. rewrite Hsame.
      intuition.
Qed.

Lemma diff_from_bounds (lo hi : Q) (rows : DataFrame) :
  forall ls,
    Forall (fun kv => lo <= snd kv <= hi)%Q ls ->
    Forall (fun r => lo <= Fully_Vaccinated_Percentage r <= hi)%Q rows ->
    Forall (fun x => forall d, x = Some d -> (lo - hi <= d <= hi - lo)%Q)
           (diff_from ls rows).
Proof.
  induction rows as [|r rows IH]; intros ls Hls Hrows; [ constructor | ].
  inversion Hrows as [|? ? Hr Hrest]; subst.
  cbn [diff_from]. constructor.
  - intros d Hd. destruct (lookup_value (Country r) ls) as [p|] eqn:El;
      [ | discriminate ].
    pose proof (lookup_value_bounds lo hi _ _ _ Hls El).
    cbn [PyFloat.sub] in Hd. inversion Hd; subst. lra.
  - apply IH; [ constructor; [ exact Hr | exact Hls ] | exact Hrest ].
Qed.

(** The column of daily changes has one entry per row. On the rows of
    each country, in table order, it is the difference of each value of
    the percentage with the previous value of the same country, nan on
    the first row of the country; so the number of nan entries is the
    number of distinct countries. On rows in bounds no change is outside
    [-95, 95]. *)
Theorem daily_change_per_country (df_sorted : DataFrame) :
  List.length (daily_change df_sorted) = List.length df_sorted
  /\ (forall c,
        changes_of c df_sorted (daily_change df_sorted)
        = series_diff (map Fully_Vaccinated_Percentage (group c df_sorted)))
  /\ count_nan (daily_change df_sorted) = nunique (map Country df_sorted)
  /\ (Forall row_in_bounds df_sorted ->
      Forall (fun x => forall d, x = Some d -> (-95 <= d <= 95)%Q)
             (daily_change df_sorted)).
Proof.
  unfold daily_change. split; [ | split; [ | split ] ].
  - generalize (@nil (string * Q)).
    induction df_sorted as [|r rows IH]; intros ls; simpl;
      [ reflexivity | rewrite IH; reflexivity ].
  - intros c. apply (diff_from_per_country c df_sorted []).
  - unfold nunique, unique.
    rewrite <- (diff_from_count_nan df_sorted [] []) by (simpl; tauto).
    simpl. lia.
  - intros Hb.
    refine (Forall_impl _ _ (diff_from_bounds 0 95 df_sorted [] _ _)).
    + intros x Hx d Hd. specialize (Hx d Hd). lra.
    + constructor.
    + refine (Forall_impl _ _ Hb). intros r Hr.
      unfold row_in_bounds in Hr. tauto.
Qed.

(** ** The Country Analysis page *)

Lemma country_analysis_some (c : string) (df : DataFrame) :
  c <> ""%string ->
  country_analysis (Some c) df
  = match last_of_group c df with
    | Some latest => Ok (Some (metrics_of latest))
    | None => Raised "IndexError: single positional indexer is out-of-bounds"
    end.
Proof.
  intros Hc. unfold country_analysis, iloc_last, last_of_group, group.
  destruct (String.eqb_spec c ""); [ contradiction | ].
  destruct (rev (filter (fun r => (Country r =? c)%string) df));
    reflexivity.
Qed.

(** The page never fails on a country that the selectbox offers, the
    distinct countries of the filtered table: it shows the metrics of
    the last row of the country, in table order. With nothing to offer
    (an empty table) the selectbox gives no country and nothing is shown.
    Only for a country with no row in the table would [iloc[-1]] raise an
    IndexError. *)
Theorem country_analysis_outcome (df_filtered : DataFrame) :
  let options := unique (map Country df_filtered) in
  country_analysis None df_filtered = Ok None
  /\ (df_filtered = [] -> selectbox_default options = None)
  /\ (exists shown,
        country_analysis (selectbox_default options) df_filtered = Ok shown)
  /\ (forall c,
        c <> ""%string -> In c options ->
        exists latest,
          last_of_group c df_filtered = Some latest
          /\ country_analysis (Some c) df_filtered
             = Ok (Some (metrics_of latest)))
  /\ (forall c,
        c <> ""%string -> ~ In c (map Country df_filtered) ->
        exists e, country_analysis (Some c) df_filtered = Raised e).
Proof.
  intros options.
  destruct (unique_spec (map Country df_filtered)) as (_ & Hin).
  assert (Hoffered : forall c,
             c <> ""%string -> In c options ->
             exists latest,
               last_of_group c df_filtered = Some latest
               /\ country_analysis (Some c) df_filtered
                  = Ok (Some (metrics_of latest))).
  { intros c Hc Hopt. apply Hin in Hopt.
    destruct (last_of_group_some c df_filtered Hopt) as (latest & E).
    exists latest. split; [ exact E | ].
    rewrite country_analysis_some, E by exact Hc. reflexivity. }
  split; [ reflexivity | ].
  split; [ intros ->; reflexivity | ].
  split; [ | split; [ exact Hoffered | ] ].
  - destruct (selectbox_default options) as [c|] eqn:E;
      [ | exists None; reflexivity ].
    destruct (String.eqb_spec c "") as [-> | Hc].
    + exists None. reflexivity.
    + assert (Hopt : In c options).
      { unfold selectbox_default in E. destruct options as [|c' rest];
          [ discriminate | ]. inversion E. left. reflexivity. }
      destruct (Hoffered c Hc Hopt) as (latest & _ & ->). eauto.
  - intros c Hc Hnot. rewrite country_analysis_some by exact Hc.
    destruct (last_of_group c df_filtered) as [r|] eqn:E.
    + apply last_of_group_In in E. destruct E as (Hr & <-).
      exfalso. apply Hnot. apply in_map. exact Hr.
    + eauto.
Qed.

(** ** The Country Analysis page agrees with the Overview *)

Lemma filter_data_as_filter (selection : list string)
    (start_date end_date : Datetime.date) :
  exists keep, forall df,
    filter_data selection start_date end_date df = filter keep df.
Proof.
  unfold filter_data.
  destruct (negb (isin all_countries selection) && truthy selection).
  - eexists. intros df. rewrite filter_filter. reflexivity.
  - eexists. intros df. reflexivity.
Qed.

Lemma filter_comm {A} (f g : A -> bool) (l : list A) :
  filter f (filter g l) = filter g (filter f l).
Proof.
  rewrite !filter_filter. apply filter_ext. intros x. apply andb_comm.
Qed.

Lemma NoDup_map_eq {A B} (f : A -> B) (l : list A) (x y : A) :
  NoDup (map f l) -> In x l -> In y l -> f x = f y -> x = y.
Proof.
  induction l as [|a l IH]; simpl; intros Hnd Hx Hy E; [ destruct Hx | ].
  inversion Hnd as [|? ? Hnotin Hnd']; subst.
  destruct Hx as [-> | Hx], Hy as [-> | Hy].
  - reflexivity.
  - exfalso. apply Hnotin. rewrite E. apply in_map. exact Hy.
  - exfalso. apply Hnotin. rewrite <- E. apply in_map. exact Hx.
  - apply IH; assumption.
Qed.

Lemma StronglySorted_map_inv {A B} (R : B -> B -> Prop) (f : A -> B)
    (l : list A) :
  StronglySorted R (map f l) -> StronglySorted (fun a b => R (f a) (f b)) l.
Proof.
  induction l as [|a l IH]; simpl; intros H; [ constructor | ].
  apply StronglySorted_inv in H. destruct H as (Hs & Hall).
  constructor; [ apply IH; exact Hs | ].
  rewrite Forall_forall in *. intros b Hb. apply Hall. apply in_map.
  exact Hb.
Qed.

Lemma window_sorted (t : Datetime.datetime) :
  StronglySorted Z.lt (Datetime.date_range (t - Datetime.timedelta 365) t).
Proof.
  rewrite date_range_window. generalize 366%nat. generalize 0%nat.
  intros a n. revert a. induction n as [|n IH]; intros a; simpl.
  - constructor.
  - constructor; [ apply IH | ].
    apply Forall_map. apply Forall_forall. intros k Hk. apply in_seq in Hk.
    unfold Datetime.timedelta, Datetime.US_PER_DAY. lia.
Qed.

Lemma filter_eqb_NoDup (c : string) (l : list string) :
  NoDup l ->
  filter (fun x => (x =? c)%string) l = []
  \/ filter (fun x => (x =? c)%string) l = [c].
Proof.
  induction 1 as [|x l Hnotin Hnd IH]; simpl; [ left; reflexivity | ].
  destruct (String.eqb_spec x c) as [-> | Hne]; [ | exact IH ].
  right. f_equal. apply filter_none. intros y Hy.
  apply String.eqb_neq. intros ->. contradiction.
Qed.

(** The rows of one country of the generated table are in strictly
    increasing order of date. *)
Lemma generated_country_sorted (w : World) (c : string) :
  StronglySorted date_lt (group c (fst (generate_vaccination_data w))).
Proof.
  apply (StronglySorted_map_inv Z.lt Date).
  unfold group.
  match goal with
  | |- StronglySorted _ (map Date ?l) =>
      change (StronglySorted Z.lt (map (fun x => snd (key x)) l))
  end.
  rewrite <- (map_map key snd).
  assert (E : map key (filter (fun r => (Country r =? c)%string)
                              (fst (generate_vaccination_data w)))
              = filter (fun k => (fst k =? c)%string)
                       (map key (fst (generate_vaccination_data w))))
    by (rewrite filter_map_comm; reflexivity).
  rewrite E, generated_keys.
  match goal with
  | |- context [filter ?f (list_prod countries ?ds)] =>
      assert (E2 : filter f (list_prod countries ds)
                   = list_prod (filter (fun x => (x =? c)%string) countries)
                               (filter (fun _ => true) ds))
  end.
  { rewrite <- (filter_list_prod (fun x => (x =? c)%string)
                  (fun _ : Z => true)).
    apply filter_ext. intros k. cbv beta. rewrite andb_true_r.
    reflexivity. }
  rewrite E2, filter_true.
  destruct (filter_eqb_NoDup c countries countries_NoDup) as [-> | ->].
  - constructor.
  - simpl. rewrite app_nil_r, map_map. cbn [snd]. rewrite map_id.
    apply window_sorted.
Qed.

Lemma generated_keys_NoDup (w : World) :
  NoDup (map key (fst (generate_vaccination_data w))).
Proof.
  rewrite generated_keys. apply NoDup_list_prod;
    [ apply countries_NoDup | apply window_NoDup ].
Qed.

Lemma StronglySorted_weaken {A} (R S : A -> A -> Prop) (l : list A) :
  (forall a b, R a b -> S a b) -> StronglySorted R l -> StronglySorted S l.
Proof.
  intros HRS. induction 1 as [|a l Hs IH Hall]; constructor; [ exact IH | ].
  refine (Forall_impl _ _ Hall). intros b. apply HRS.
Qed.

(** On a table filtered from the generated one, whatever the selection
    and the date range, the row whose metrics the Country Analysis page
    shows for a country, the last row of the country in table order, is
    the record that the country comparison of the Overview keeps for it:
    the row of the country with the latest date. *)
Theorem country_page_agrees_with_overview (w : World)
    (selection : list string) (start_date end_date : Datetime.date)
    (c : string) :
  let df_filtered :=
    filter_data selection start_date end_date
                (fst (generate_vaccination_data w)) in
  In c (map Country df_filtered) ->
  exists latest,
    iloc_last (filter (fun r => (Country r =? c)%string) df_filtered)
    = Ok latest
    /\ In latest (latest_data df_filtered)
    /\ Country latest = c
    /\ (forall r, In r df_filtered -> Country r = c ->
                  Date r <= Date latest).
Proof.
  intros df_filtered Hc.
  destruct (filter_data_as_filter selection start_date end_date)
    as (keep & Hkeep).
  assert (Edf : df_filtered = filter keep (fst (generate_vaccination_data w)))
    by apply Hkeep.
  (* the last row of the country, in table order *)
  destruct (last_of_group_some c df_filtered Hc) as (latest & Elast).
  destruct (last_of_group_In c df_filtered latest Elast) as (Hin & Hcl).
  assert (Hsorted : StronglySorted date_le (group c df_filtered)).
  { unfold group. rewrite Edf, filter_comm.
    apply StronglySorted_filter.
    apply (StronglySorted_weaken date_lt);
      [ unfold date_lt, date_le; intros; lia | ].
    apply generated_country_sorted. }
  assert (Hmax : forall r, In r df_filtered -> Country r = c ->
                           Date r <= Date latest).
  { intros r Hr Hcr. unfold last_of_group in Elast.
    destruct (rev (group c df_filtered)) as [|r0 rest] eqn:E;
      [ discriminate | ].
    inversion Elast; subst r0.
    assert (Eg : group c df_filtered = rev rest ++ [latest]).
    { rewrite <- (rev_involutive (group c df_filtered)), E. reflexivity. }
    apply (sorted_last_is_max (rev rest) latest).
    - rewrite <- Eg. exact Hsorted.
    - rewrite <- Eg. unfold group. apply filter_In.
      split; [ exact Hr | apply String.eqb_eq; exact Hcr ]. }
  (* the record of the country comparison *)
  destruct (sort_values_is_sorted df_filtered) as (Hperm & Hss).
  assert (Hc' : In c (map Country (sort_values df_filtered))).
  { revert Hc. apply Permutation_in. apply Permutation_map. exact Hperm. }
  destruct (last_of_group_some c _ Hc') as (record & Erec).
  destruct (last_of_group_In c _ record Erec) as (Hrin & Hrc).
  assert (Hrin' : In record df_filtered).
  { revert Hrin. apply Permutation_in. apply Permutation_sym. exact Hperm. }
  assert (Hrmax : Date latest <= Date record).
  { apply (last_of_group_is_max c _ record Hss Erec); [ | exact Hcl ].
    revert Hin. apply Permutation_in. exact Hperm. }
  assert (Esame : record = latest).
  { apply (NoDup_map_eq key (fst (generate_vaccination_data w))).
    - apply generated_keys_NoDup.
    - rewrite Edf in Hrin'. apply filter_In in Hrin'. tauto.
    - rewrite Edf in Hin. apply filter_In in Hin. tauto.
    - unfold key. f_equal; [ congruence | ].
      pose proof (Hmax record Hrin' Hrc). lia. }
  exists latest. split; [ | split; [ | split; [ exact Hcl | exact Hmax ] ] ].
  - unfold iloc_last. unfold last_of_group, group in Elast.
    destruct (rev (filter (fun r => (Country r =? c)%string) df_filtered));
      [ discriminate | ]. inversion Elast. reflexivity.
  - unfold latest_data. apply groupby_last_In. exists c.
    split; [ apply (proj2 (group_keys_spec _)); exact Hc' | ].
    rewrite <- Esame. exact Erec.
Qed.

Lemma country_page_agrees_with_overview_witness :
  In "UK"%string
     (map Country
          (filter_data default_countries
             (Datetime.date_of (a_clock - Datetime.timedelta 180))
             (Datetime.date_of a_clock)
             (fst (generate_vaccination_data zero_tape))))
  /\ exists latest,
      iloc_last
        (filter (fun r => (Country r =? "UK")%string)
           (filter_data default_countries
              (Datetime.date_of (a_clock - Datetime.timedelta 180))
              (Datetime.date_of a_clock)
              (fst (generate_vaccination_data zero_tape)))) = Ok latest
      /\ In latest
            (latest_data
               (filter_data default_countries
                  (Datetime.date_of (a_clock - Datetime.timedelta 180))
                  (Datetime.date_of a_clock)
                  (fst (generate_vaccination_data zero_tape)))).
Proof.
  assert (Hin : In "UK"%string
                   (map Country
                      (filter_data default_countries
                         (Datetime.date_of (a_clock - Datetime.timedelta 180))
                         (Datetime.date_of a_clock)
                         (fst (generate_vaccination_data zero_tape))))).
  { refine (proj1 (isin_In "UK"%string _) _). vm_compute. reflexivity. }
  split; [ exact Hin | ].
  destruct (country_page_agrees_with_overview zero_tape default_countries
              (Datetime.date_of (a_clock - Datetime.timedelta 180))
              (Datetime.date_of a_clock) "UK"%string Hin)
    as (latest & E & Hl & _).
  exists latest. split; [ exact E | exact Hl ].
Defined.

(** ** What the raw data preview shows *)

Lemma full_range_keeps_all (w : World) (start_date end_date : Datetime.date) :
  start_date <= Datetime.date_of (clock w) - 365 ->
  Datetime.date_of (clock w) <= end_date ->
  filter_data [] start_date end_date (fst (generate_vaccination_data w))
  = fst (generate_vaccination_data w).
Proof.
  intros Ha Hb. unfold filter_data. cbn [isin existsb truthy negb andb].
  apply filter_all. intros r Hr.
  assert (Hk : In (key r) (map key (fst (generate_vaccination_data w))))
    by (apply in_map; exact Hr).
  rewrite generated_keys in Hk. apply in_prod_iff in Hk.
  destruct Hk as (_ & Hd). cbn [key snd] in Hd.
  rewrite date_range_window in Hd. apply in_map_iff in Hd.
  destruct Hd as (k & Ek & Hk). apply in_seq in Hk.
  unfold date_mask. rewrite <- Ek, date_of_shift, date_of_window_start.
  apply andb_true_iff. rewrite !Z.leb_le. lia.
Qed.

Lemma firstn_three_blocks {A} (l1 l2 l3 rest : list A) (n : nat) (x : A) :
  (n <= List.length l1 + List.length l2 + List.length l3)%nat ->
  In x (firstn n (l1 ++ l2 ++ l3 ++ rest)) ->
  In x l1 \/ In x l2 \/ In x l3.
Proof.
  intros Hn Hin.
  replace (l1 ++ l2 ++ l3 ++ rest) with ((l1 ++ l2 ++ l3) ++ rest) in Hin
    by (rewrite <- !app_assoc; reflexivity).
  rewrite firstn_app in Hin.
  replace (n - List.length (l1 ++ l2 ++ l3))%nat with 0%nat in Hin
    by (rewrite !length_app; lia).
  cbn [firstn] in Hin. rewrite app_nil_r in Hin.
  assert (Hsub : forall (l : list A) m, In x (firstn m l) -> In x l).
  { intros l m H. rewrite <- (firstn_skipn m l). apply in_or_app.
    left. exact H. }
  apply Hsub in Hin. rewrite !in_app_iff in Hin. exact Hin.
Qed.

(** With nothing selected and a date range that covers the whole window,
    the filtered table is the whole generated table, 4392 rows; the
    preview takes its first 1000 rows, which are rows of USA, India and
    Brazil only: no row of the other nine countries is in the preview. *)
Theorem preview_shows_three_countries (w : World)
    (start_date end_date : Datetime.date) :
  start_date <= Datetime.date_of (clock w) - 365 ->
  Datetime.date_of (clock w) <= end_date ->
  let df_filtered :=
    filter_data [] start_date end_date (fst (generate_vaccination_data w)) in
  List.length df_filtered = 4392%nat
  /\ List.length (raw_data_preview df_filtered) = 1000%nat
  /\ forall r, In r (raw_data_preview df_filtered) ->
               In (Country r) ["USA"; "India"; "Brazil"]%string.
Proof.
  intros Ha Hb df_filtered.
  assert (Edf : df_filtered = fst (generate_vaccination_data w))
    by (apply full_range_keeps_all; assumption).
  assert (Hdates : List.length
                     (Datetime.date_range (clock w - Datetime.timedelta 365)
                        (clock w)) = 366%nat)
    by (rewrite date_range_window, length_map, length_seq; reflexivity).
  assert (Hlen : List.length df_filtered = 4392%nat).
  { rewrite Edf, <- (length_map key), generated_keys, length_prod, Hdates.
    reflexivity. }
  split; [ exact Hlen | ]. unfold raw_data_preview, head. split.
  - rewrite length_firstn, Hlen. reflexivity.
  - intros r Hr.
    assert (Hk : In (key r) (firstn 1000 (map key df_filtered))).
    { rewrite firstn_map. apply in_map. exact Hr. }
    rewrite Edf, generated_keys in Hk. unfold countries in Hk.
    cbn [list_prod] in Hk.
    apply firstn_three_blocks in Hk;
      [ | rewrite !length_map, Hdates; simpl; lia ].
    rewrite !in_map_iff in Hk. unfold key in Hk. simpl.
    destruct Hk as [(d & E & _) | [(d & E & _) | (d & E & _)]];
      inversion E; auto.
Qed.

Lemma preview_shows_three_countries_witness :
  Datetime.date_of a_clock - 365 <= Datetime.date_of (clock zero_tape) - 365
  /\ Datetime.date_of (clock zero_tape) <= Datetime.date_of a_clock
  /\ List.length
       (raw_data_preview
          (filter_data [] (Datetime.date_of a_clock - 365)
             (Datetime.date_of a_clock)
             (fst (generate_vaccination_data zero_tape)))) = 1000%nat.
Proof.
  assert (H1 : Datetime.date_of a_clock - 365
               <= Datetime.date_of (clock zero_tape) - 365)
    by (cbn [clock zero_tape]; lia).
  assert (H2 : Datetime.date_of (clock zero_tape) <= Datetime.date_of a_clock)
    by (cbn [clock zero_tape]; lia).
  split; [ exact H1 | ]. split; [ exact H2 | ].
  apply (preview_shows_three_countries zero_tape
           (Datetime.date_of a_clock - 365) (Datetime.date_of a_clock) H1 H2).
Defined.
